(** * FDA recognised-standards pipeline: listing scraper, catalogue
      synchroniser and artifact processor.

    Shallow embedding of [scraper.py], [fda_db_operations.py],
    [s3_operations.py] and the [process_standard] method of
    [pdf_html_generator.py].

    Python dictionaries are finite maps from column names to values, a
    pandas frame is its column list with its list of rows, the SQL table
    [fda_standards] is a list of rows, the S3 bucket and the local disk
    are finite sets of names.  An exception is an explicit [None] (or an
    injected fault) at the place where Python raises it, and every
    [try/except] of the source appears as the match that handles it. *)

From Stdlib Require Import Strings.String Strings.Ascii.
From stdpp Require Import base option list strings gmap pretty.

Local Open Scope string_scope.
Local Open Scope list_scope.

(** ** Values *)

(** What a frame cell or a dictionary value holds in the pipeline: a
    Python [str], [None], or the float NaN pandas uses for a missing
    cell. *)
Inductive value :=
  | VStr (s : string)
  | VNone
  | VNaN.

#[global] Instance value_eq_dec : EqDecision value.
Proof. solve_decision. Defined.

#[global] Instance value_inhabited : Inhabited value := populate VNaN.

(** Python's [str(v)]. *)
Definition py_str (v : value) : string :=
  match v with
  | VStr s => s
  | VNone => "None"
  | VNaN => "nan"
  end.

(** [pd.isna] / [pd.notna]. *)
Definition isna (v : value) : bool :=
  match v with
  | VStr _ => false
  | VNone | VNaN => true
  end.

(** [Series.fillna(d)]. *)
Definition fillna (d : string) (v : value) : value :=
  if isna v then VStr d else v.

(** [Series.where(pd.notna(s), None)]. *)
Definition where_notna_none (v : value) : value :=
  if isna v then VNone else v.

(** [needle in hay] on Python strings. *)
Fixpoint contains (needle hay : string) : bool :=
  String.prefix needle hay ||
  match hay with
  | EmptyString => false
  | String _ rest => contains needle rest
  end.

(** ** HTML as the scraper sees it

    [extract_table_rows] only ever asks a parsed page for the table with
    id [stds-results-table], its [tr] elements, their [td] elements, the
    stripped text of a cell and the first anchor inside it. *)

Record a_tag := { a_text : string; a_href : option string }.

Record td := { td_text : string; td_a : option a_tag }.

(** [soup.find("table", {"id": "stds-results-table"})], with the rows
    [table.find_all("tr")] each given by [tr.find_all("td")]. *)
Definition soup := option (list (list td)).

(** A row dictionary / a frame row / a table row. *)
Abbreviation row := (gmap string value).

Record DataFrame := { columns : list string; rows : list row }.

(** [pd.DataFrame()] *)
Definition empty_frame : DataFrame := {| columns := []; rows := [] |}.

(** [df.empty]: some axis has length zero. *)
Definition df_empty (df : DataFrame) : bool :=
  bool_decide (columns df = []) || bool_decide (rows df = []).

(** [df[c] = f(row)]: overwrite the column, or append it as the last
    one. *)
Definition assign (c : string) (f : row → value) (df : DataFrame) : DataFrame :=
  {| columns := if bool_decide (c ∈ columns df) then columns df
                else columns df ++ [c];
     rows := (λ r, <[c := f r]> r) <$> rows df |}.

(** [row[c]]; a cell a row dictionary did not supply is NaN. *)
Definition cell (r : row) (c : string) : value := r !!! c.

(** ** What the sources import

    The configuration module is not part of the sources, and the library
    functions are not the repository's code: both are taken as given. *)
Class Externals := {
  (** [config.FDA_BASE_URL] *)
  FDA_BASE_URL : string;
  (** [config.COLUMNS] *)
  COLUMNS : list string;
  (** [urllib.parse.urljoin] *)
  urljoin : string → string → string;
  (** [hashlib.md5(s.encode()).hexdigest()] *)
  md5_hexdigest : string → string;
  (** [pd.to_datetime(v, format='%m/%d/%Y', errors='coerce')] followed
      by [.dt.strftime('%Y-%m-%d')], on one cell *)
  to_iso_date : value → value;
  (** [str.strip()] *)
  py_strip : string → string;
  (** [os.path.join] *)
  path_join : string → string → string;
}.

Module Scraper.

Section Scraper.

Context `{!Externals}.

(** The page size [fetch_page] hard-codes as [pagenum] and
    [scrape_fda_standards] compares against and steps by. *)
Definition PAGE_SIZE : nat := 500.

(** The carry of [extract_table_rows]: always a list of four entries,
    [[None, None, None, None]] first and [row_texts[:4]] of a row of
    at least seven cells afterwards. *)
Definition carry := (value * value * value * value)%type.

Definition carry0 : carry := (VNone, VNone, VNone, VNone).

(** [a_tag.get_text(strip=True) if a_tag else row_texts[i]] *)
Definition title_of (c : td) : value :=
  VStr (match td_a c with Some a => a_text a | None => td_text c end).

(** [urljoin(FDA_BASE_URL, a_tag["href"]) if a_tag else ""]; an anchor
    without [href] raises [KeyError]. *)
Definition link_of (c : td) : option value :=
  match td_a c with
  | Some a =>
      match a_href a with
      | Some h => Some (VStr (urljoin FDA_BASE_URL h))
      | None => None
      end
  | None => Some (VStr "")
  end.

Definition make_row (c0 c1 c2 c3 sdo desig title link : value) : row :=
  {[ "date_of_entry" := c0;
     "specialty_task_group_area" := c1;
     "recognition_number" := c2;
     "extent_of_recognition" := c3;
     "standards_developing_organization" := sdo;
     "standard_designation_number_and_date" := desig;
     "standard_title" := title;
     "title_link" := link ]}.

(** The two header tests at the top of the loop body: the new template
    when the row is skipped, [None] when it goes on to be classified. *)
Definition header_skip (header_template : option (list string))
    (row_texts : list string) : option (option (list string)) :=
  match header_template with
  | None =>
      if existsb (contains "Date") row_texts then Some (Some row_texts)
      else None
  | Some h =>
      if bool_decide (h ≠ []) && bool_decide (row_texts = h)
      then Some header_template
      else None
  end.

(** What one [tr] does to the loop state. *)
Inductive row_effect :=
  | Skip (header_template : option (list string))
  | Emit (r : row) (c : carry)
  | Discard
  | KeyError.

Definition classify (tds : list td) (c : carry)
    (header_template : option (list string)) : row_effect :=
  match tds with
  | [] => Discard
  | _ =>
    match header_skip header_template (td_text <$> tds) with
    | Some ht => Skip ht
    | None =>
      match tds with
      | t0 :: t1 :: t2 :: t3 :: t4 :: t5 :: t6 :: _ =>
          match link_of t6 with
          | Some link =>
              Emit (make_row (VStr (td_text t0)) (VStr (td_text t1))
                      (VStr (td_text t2)) (VStr (td_text t3))
                      (VStr (td_text t4)) (VStr (td_text t5))
                      (title_of t6) link)
                   (VStr (td_text t0), VStr (td_text t1),
                    VStr (td_text t2), VStr (td_text t3))
          | None => KeyError
          end
      | [t0; t1; t2] =>
          match link_of t2 with
          | Some link =>
              let '(c0, c1, c2, c3) := c in
              Emit (make_row c0 c1 c2 c3
                      (VStr (td_text t0)) (VStr (td_text t1))
                      (title_of t2) link)
                   c
          | None => KeyError
          end
      | _ => Discard
      end
    end
  end.

(** The [for tr in table.find_all("tr")] loop; [None] is the
    [KeyError] leaving the function. *)
Fixpoint rows_loop (trs : list (list td)) (acc : list row) (c : carry)
    (header_template : option (list string))
    : option (list row * option (list string)) :=
  match trs with
  | [] => Some (acc, header_template)
  | tds :: rest =>
      match classify tds c header_template with
      | Skip ht => rows_loop rest acc c ht
      | Emit r c' => rows_loop rest (acc ++ [r]) c' header_template
      | Discard => rows_loop rest acc c header_template
      | KeyError => None
      end
  end.

Definition extract_table_rows (s : soup)
    (header_template : option (list string))
    : option (list row * option (list string)) :=
  match s with
  | None => Some ([], header_template)
  | Some trs => rows_loop trs [] carry0 header_template
  end.

(** [pd.DataFrame(all_rows, columns=COLUMNS).fillna("").astype(str)]:
    one cell per configured column, a key the dictionary lacks being
    NaN before the fill. *)
Definition frame_row (d : row) : row :=
  list_to_map ((λ c, (c, VStr (py_str (fillna "" (cell d c))))) <$> COLUMNS).

Definition to_frame (all_rows : list row) : DataFrame :=
  {| columns := COLUMNS; rows := frame_row <$> all_rows |}.

(** The listing as the crawler reaches it: [fetch_page(start, session)]
    parsed by [BeautifulSoup]. [None] is any exception of the request
    ([raise_for_status], a timeout). Offsets only grow, so no offset is
    asked for twice. *)
Definition source := nat → option soup.

(** The [while True] loop of [scrape_fda_standards], one unit of fuel
    per iteration. [fetched] lists the offsets [fetch_page] was called
    with, oldest first; it is not a variable of the source. *)
Fixpoint scrape_loop (fuel : nat) (src : source) (start : nat)
    (header_template : option (list string)) (all_rows : list row)
    (fetched : list nat) : option (list row * list nat) :=
  match fuel with
  | 0 => None
  | S fuel =>
      match src start ≫= (λ s, extract_table_rows s header_template) with
      | None => Some (all_rows, fetched ++ [start])
      | Some (page_rows, header_template) =>
          if bool_decide (page_rows = []) then
            Some (all_rows, fetched ++ [start])
          else if bool_decide (length page_rows < PAGE_SIZE) then
            Some (all_rows ++ page_rows, fetched ++ [start])
          else
            scrape_loop fuel src (start + PAGE_SIZE) header_template
              (all_rows ++ page_rows) (fetched ++ [start])
      end
  end.

Definition scrape_fda_standards (fuel : nat) (src : source)
    : option (DataFrame * list nat) :=
  '(all_rows, fetched) ← scrape_loop fuel src 1 None [] [];
  Some (to_frame all_rows, fetched).

End Scraper.

End Scraper.

(** ** [fda_db_operations.py] *)

Module Catalog.

Section Catalog.

Context `{!Externals}.

Definition s3_bucket : string := "lexim-international".
Definition s3_prefix : string := "FDA_STANDARDS/".

(** The statements that can raise inside the [try] blocks, with the
    text of the exception when they do. With the one of [to_sql] goes
    the number of chunks it had written before it raised. *)
Record db_faults := {
  select_error : option string;
  insert_error : option (string * nat);
}.

Definition no_fault : db_faults :=
  {| select_error := None; insert_error := None |}.

Definition generate_unique_id (recognition_number
    standards_developing_organization
    standard_designation_number_and_date : string) : string :=
  md5_hexdigest (recognition_number +:+ "|" +:+
                 standards_developing_organization +:+ "|" +:+
                 standard_designation_number_and_date).

Definition required_cols : list string :=
  [ "recognition_number";
    "standards_developing_organization";
    "standard_designation_number_and_date" ].

(** [SELECT unique_id FROM fda_standards WHERE unique_id IS NOT NULL]
    collected into a set. *)
Definition existing_ids (tbl : list row) : gset string :=
  list_to_set (omap (λ r, match cell r "unique_id" with
                          | VStr s => Some s
                          | _ => None
                          end) tbl).

Definition row_unique_id (r : row) : string :=
  generate_unique_id (py_str (cell r "recognition_number"))
                     (py_str (cell r "standards_developing_organization"))
                     (py_str (cell r "standard_designation_number_and_date")).

(** [v in existing_ids] as [Series.isin] tests it. *)
Definition isin (ids : gset string) (v : value) : bool :=
  match v with
  | VStr s => bool_decide (s ∈ ids)
  | _ => false
  end.

Definition check_duplicates (f : db_faults) (tbl : list row)
    (df : DataFrame) : DataFrame :=
  if df_empty df then empty_frame
  else if bool_decide (filter (λ c, c ∉ columns df) required_cols ≠ [])
  then empty_frame
  else
    match select_error f with
    | Some _ => empty_frame
    | None =>
        let ids := existing_ids tbl in
        let df := assign "unique_id" (λ r, VStr (row_unique_id r)) df in
        {| columns := columns df;
           rows := filter (λ r, isin ids (cell r "unique_id") = false)
                          (rows df) |}
    end.

Definition defaults : list (string * option string) :=
  [ ("standard_title", Some "");
    ("specialty_task_group_area", Some "UNKNOWN");
    ("aws_key", None);
    ("aws_html_key", None) ].

(** One round of the [for col, default in defaults.items()] loop. *)
Definition apply_default (df : DataFrame) (d : string * option string)
    : DataFrame :=
  let '(col, default) := d in
  if bool_decide (col ∈ columns df) then
    match default with
    | None => assign col (λ r, where_notna_none (cell r col)) df
    | Some s => assign col (λ r, fillna s (cell r col)) df
    end
  else
    assign col (λ _, match default with Some s => VStr s | None => VNone end) df.

(** The frame [insert_new_standards] hands to [to_sql]. *)
Definition prepare (new_df : DataFrame) : DataFrame :=
  let new_df := assign "aws_bucket" (λ _, VStr s3_bucket) new_df in
  let new_df := assign "aws_key" (λ _, VNone) new_df in
  let new_df := assign "aws_html_key" (λ _, VNone) new_df in
  let new_df :=
    if bool_decide ("date_of_entry" ∈ columns new_df)
    then assign "date_of_entry" (λ r, to_iso_date (cell r "date_of_entry")) new_df
    else new_df in
  foldl apply_default new_df defaults.

(** [chunksize=500] of the [to_sql] call. *)
Definition chunksize : nat := 500.

(** Returns the table after the call with the [(bool, str)] result.
    [to_sql(..., if_exists='append', chunksize=500, method='multi')]
    adds the frame's rows after the ones the table has, one chunk
    after the other: when a chunk raises, the chunks written before it
    stay in the table. *)
Definition insert_new_standards (f : db_faults) (tbl : list row)
    (df : DataFrame) : list row * (bool * string) :=
  let new_df := check_duplicates f tbl df in
  if df_empty new_df then (tbl, (true, "No new records to insert"))
  else
    let new_df := prepare new_df in
    match insert_error f with
    | Some (e, written) =>
        (tbl ++ take (chunksize * written) (rows new_df),
         (false, "Insert failed: " +:+ e))
    | None =>
        (tbl ++ rows new_df,
         (true, "Inserted " +:+ pretty (length (rows new_df)) +:+ " records"))
    end.

(** SQL [a = b]: never true on NULL. *)
Definition sql_eq (a b : value) : bool :=
  match a, b with
  | VStr x, VStr y => bool_decide (x = y)
  | _, _ => false
  end.

Definition set_s3_paths (pdf_filename html_filename : string) (r : row)
    : row :=
  <["aws_html_key" := VStr (s3_prefix +:+ "HTML/" +:+ html_filename)]>
    (<["aws_key" := VStr (s3_prefix +:+ "PDF/" +:+ pdf_filename)]> r).

(** [update_error] is an exception anywhere inside the
    [with self.engine.begin()] block, which rolls the statement
    back. The boolean is [result.rowcount > 0]. *)
Definition update_s3_paths (update_error : bool) (tbl : list row)
    (title_link : value) (pdf_filename html_filename : string)
    : list row * bool :=
  if update_error then (tbl, false)
  else
    let hit := λ r : row, sql_eq (cell r "title_link") title_link in
    ((λ r, if hit r then set_s3_paths pdf_filename html_filename r else r)
       <$> tbl,
     bool_decide (0 < length (filter (λ r, hit r = true) tbl))).

(** The [WHERE] clause of [db_processed] in [get_sync_status]; its
    negation is the one of [get_unprocessed_standards]. *)
Definition processed (r : row) : bool :=
  match cell r "aws_key", cell r "aws_html_key" with
  | VStr k, VStr h => bool_decide (k ≠ "") && bool_decide (h ≠ "")
  | _, _ => false
  end.

End Catalog.

End Catalog.

(** ** [s3_operations.py] and [FDAStandardsProcessor.process_standard] *)

Module Processor.

Import Catalog.

Section Processor.

Context `{!Externals}.

(** Everything [process_standard] can change: the table
    [fda_standards], the keys present in the bucket, the files on the
    local disk. *)
Record world := {
  db : list row;
  bucket : gset string;
  disk : gset string;
}.

(** How one [s3_client.upload_file] call ends: normally, with the
    [ClientError] that [S3Operations.upload_file] turns into [False],
    or with any other exception, which it lets through. *)
Inductive upload_outcome := Uploaded | ClientError | OtherError.

(** How one [s3_client.head_object] call ends: it answers (the object,
    or the 404 of an absent key), it fails with another [ClientError],
    which [S3Operations.file_exists] turns into [False], or with any
    other exception, which it lets through. *)
Inductive head_outcome := Answered | HeadClientError | HeadOtherError.

(** How [FDADatabaseOperations().update_s3_paths(...)] goes: the
    statement runs, something raises inside [update_s3_paths] (caught
    there), or the constructor itself raises. *)
Inductive db_outcome := Runs | UpdateRaises | ConnectRaises.

(** The collaborators' answers [process_standard] depends on. *)
Record environment := {
  (** per key *)
  head_object : string → head_outcome;
  (** per key *)
  upload : string → upload_outcome;
  (** [extract_detailed_data] returns something truthy *)
  detail_found : value → bool;
  (** [generate_pdf] / [generate_html] reach their [return local_path],
      per file name *)
  pdf_renders : string → bool;
  html_renders : string → bool;
  database : db_outcome;
}.

Record processor := {
  pdf_path : string;
  html_path : string;
  use_s3 : bool;
}.

(** The row of the frame of unprocessed standards, as far as
    [process_standard] reads it. *)
Record entry := {
  title_link : value;
  pdf_filename : string;
  html_filename : string;
}.

(** The character class of the [re.sub] in [sanitize_filename]: angle
    brackets, colon, double quote, slash, backslash, bar, question
    mark, star. *)
Definition unsafe_chars : list ascii :=
  [ "<"; ">"; ":"; "034"; "/"; "\"; "|"; "?"; "*" ]%char.

Definition line_breaks : list ascii := [ "010"; "013" ]%char.

Fixpoint replace_chars (bad : list ascii) (s : string) : string :=
  match s with
  | EmptyString => EmptyString
  | String a rest =>
      String (if bool_decide (a ∈ bad) then "_"%char else a)
             (replace_chars bad rest)
  end.

Definition sanitize_filename (filename : string) : string :=
  py_strip (replace_chars line_breaks (replace_chars unsafe_chars filename)).

(** [S3Operations.file_exists]; [None] is an exception leaving it,
    one of [head_object] that is not a [ClientError]. *)
Definition file_exists (env : environment) (w : world) (s3_key : string)
    : option bool :=
  match head_object env s3_key with
  | Answered => Some (bool_decide (s3_key ∈ bucket w))
  | HeadClientError => Some false
  | HeadOtherError => None
  end.

(** [S3Operations.upload_file]; [None] is an exception leaving it: the
    path is [None], the file is not there, or the client raised
    something that is not a [ClientError]. *)
Definition upload_file (env : environment) (w : world)
    (local_path : option string) (s3_key : string) : option (world * bool) :=
  match local_path with
  | None => None
  | Some path =>
      if bool_decide (path ∈ disk w) then
        match upload env s3_key with
        | Uploaded =>
            Some ({| db := db w; bucket := {[ s3_key ]} ∪ bucket w;
                     disk := disk w |}, true)
        | ClientError => Some (w, false)
        | OtherError => None
        end
      else None
  end.

(** [generate_pdf] and [generate_html], as far as the disk goes: the
    file appears at the joined path, or [None] comes back. *)
Definition generate (renders : string → bool) (dir : string) (w : world)
    (filename : string) : world * option string :=
  let filename := sanitize_filename filename in
  let local_path := path_join dir filename in
  if renders filename then
    ({| db := db w; bucket := bucket w; disk := {[ local_path ]} ∪ disk w |},
     Some local_path)
  else (w, None).

(** [os.remove]; [None] is [FileNotFoundError]. *)
Definition os_remove (w : world) (path : string) : option world :=
  if bool_decide (path ∈ disk w) then
    Some {| db := db w; bucket := bucket w; disk := disk w ∖ {[ path ]} |}
  else None.

(** [FDADatabaseOperations().update_s3_paths(url, pdf, html)], whose
    result [process_standard] drops; [None] is the constructor
    raising. *)
Definition record_paths (env : environment) (w : world) (url : value)
    (pdf html : string) : option world :=
  match database env with
  | ConnectRaises => None
  | Runs =>
      Some {| db := (update_s3_paths false (db w) url pdf html).1;
              bucket := bucket w; disk := disk w |}
  | UpdateRaises =>
      Some {| db := (update_s3_paths true (db w) url pdf html).1;
              bucket := bucket w; disk := disk w |}
  end.

Definition pdf_key (e : entry) : string :=
  s3_prefix +:+ "PDF/" +:+ sanitize_filename (pdf_filename e).

Definition html_key (e : entry) : string :=
  s3_prefix +:+ "HTML/" +:+ sanitize_filename (html_filename e).

(** The world after the call, with the returned boolean. Every
    [(w, false)] under a [None] is the outer [except Exception]. *)
Definition process_standard (p : processor) (env : environment)
    (w : world) (e : entry) : world * bool :=
  let url := title_link e in
  let pdf_filename := sanitize_filename (pdf_filename e) in
  let html_filename := sanitize_filename (html_filename e) in
  match (if use_s3 p then
           file_exists env w (pdf_key e) ≫= λ pdf_exists : bool,
             if pdf_exists then file_exists env w (html_key e) else Some false
         else Some false) with
  | None => (w, false)
  | Some true =>
      match record_paths env w url pdf_filename html_filename with
      | Some w => (w, true)
      | None => (w, false)
      end
  | Some false =>
      if negb (detail_found env url) then (w, false)
      else
        let '(w, pdf_path) :=
          generate (pdf_renders env) (pdf_path p) w pdf_filename in
        let '(w, html_path) :=
          generate (html_renders env) (html_path p) w html_filename in
        if use_s3 p then
          match upload_file env w pdf_path (pdf_key e) with
          | Some (w, true) =>
              match upload_file env w html_path (html_key e) with
              | Some (w, true) =>
                  match record_paths env w url pdf_filename html_filename with
                  | Some w =>
                      match pdf_path ≫= os_remove w with
                      | Some w =>
                          match html_path ≫= os_remove w with
                          | Some w => (w, true)
                          | None => (w, false)
                          end
                      | None => (w, false)
                      end
                  | None => (w, false)
                  end
              | Some (w, false) => (w, false)
              | None => (w, false)
              end
          | Some (w, false) => (w, false)
          | None => (w, false)
          end
        else (w, true)
  end.

End Processor.

End Processor.

(** ** Vocabulary of the properties *)

Import Scraper Catalog Processor.

(** One field of every record a call of [extract_table_rows] returns. *)
Definition field_of_records (f : string)
    (res : option (list row * option (list string)))
    : option (list (option value)) :=
  match res with
  | Some (rs, _) => Some ((λ r : row, r !! f) <$> rs)
  | None => None
  end.

(** A cell of text only, and a cell whose text is an anchor. *)
Definition plain (s : string) : td := {| td_text := s; td_a := None |}.

Definition linked (s href : string) : td :=
  {| td_text := s; td_a := Some {| a_text := s; a_href := Some href |} |}.

Section Vocabulary.

Context `{!Externals}.

(** The fields a continuation row takes from the carry. *)
Definition carried_fields : list string :=
  [ "date_of_entry"; "specialty_task_group_area";
    "recognition_number"; "extent_of_recognition" ].

(** The anchor of the cell, when there is one, has an [href]. *)
Definition has_href (c : td) : bool :=
  match td_a c with
  | Some a => bool_decide (is_Some (a_href a))
  | None => true
  end.

Definition anchors_ok (trs : list (list td)) : Prop :=
  Forall (Forall (λ c, has_href c = true)) trs.


(** The rows in front of the first record of a page: each is dropped
    by the loop, as a header or for its cell count. The result is the
    header template after them. *)
Fixpoint dropped_rows (header_template : option (list string))
    (trs : list (list td)) : option (option (list string)) :=
  match trs with
  | [] => Some header_template
  | tds :: rest =>
      match classify tds carry0 header_template with
      | Skip ht => dropped_rows ht rest
      | Discard => dropped_rows header_template rest
      | _ => None
      end
  end.

(** What one iteration of the crawl obtains at an offset: the records
    of the page, none when the fetch or the parse raises. *)
Definition page_yield (src : source) (start : nat)
    (header_template : option (list string)) : list row :=
  match src start ≫= (λ s, extract_table_rows s header_template) with
  | Some (page_rows, _) => page_rows
  | None => []
  end.

Definition next_template (src : source) (start : nat)
    (header_template : option (list string)) : option (list string) :=
  match src start ≫= (λ s, extract_table_rows s header_template) with
  | Some (_, ht) => ht
  | None => header_template
  end.


(** A listing of [n] records for exercising the crawl: record [i]
    is a full row whose link is [i] in decimal, and the page asked at
    offset [start] holds the records [start], ..., up to [PAGE_SIZE] of
    them. *)
Definition mock_tr (i : nat) : list td :=
  [ plain "01/02/2024"; plain "General"; plain "1-100"; plain "Complete";
    plain "ISO"; plain "1234:2020"; linked "Title" (pretty i) ].

Definition mock_record (i : nat) : row :=
  make_row (VStr "01/02/2024") (VStr "General") (VStr "1-100")
    (VStr "Complete") (VStr "ISO") (VStr "1234:2020") (VStr "Title")
    (VStr (urljoin FDA_BASE_URL (pretty i))).

Definition mock_source (n : nat) : source :=
  λ start, Some (Some (mock_tr <$> seq start (Nat.min PAGE_SIZE (S n - start)))).

(** The identities of the rows of a table, with repetitions. *)
Definition table_ids (tbl : list row) : list string :=
  omap (λ r, match cell r "unique_id" with
             | VStr s => Some s
             | _ => None
             end) tbl.

(** The cells of the column [unique_id]. *)
Definition id_cells (l : list row) : list value :=
  (λ r, cell r "unique_id") <$> l.

(** A frame row with its identity column set. *)
Definition add_id (r : row) : row :=
  <["unique_id" := VStr (row_unique_id r)]> r.

(** The frame passes the two guards at the top of
    [check_duplicates]. *)
Definition accepted (df : DataFrame) : bool :=
  negb (df_empty df) &&
  bool_decide (filter (λ c, c ∉ columns df) required_cols = []).

(** The input records whose identity the table does not have. *)
Definition new_rows (tbl : list row) (df : DataFrame) : list row :=
  filter (λ r, row_unique_id r ∉ existing_ids tbl) (rows df).

Definition occurrences (x : string) (l : list string) : nat :=
  length (filter (x =.) l).

(** The test [file_exists(pdf_s3_key) and file_exists(html_s3_key)]:
    both objects of an entry are found in the bucket; [None] when a
    probe raises. The second probe is made only when the first answers
    [True]. *)
Definition both_exist (env : environment) (w : world) (e : entry)
    : option bool :=
  file_exists env w (pdf_key e) ≫= λ pdf_exists : bool,
    if pdf_exists then file_exists env w (html_key e) else Some false.

(** Both uploads of an entry end normally. *)
Definition both_uploaded (env : environment) (e : entry) : Prop :=
  upload env (pdf_key e) = Uploaded ∧ upload env (html_key e) = Uploaded.

(** The run renders both files and hands them to the client. *)
Definition renders_both (env : environment) (e : entry) : Prop :=
  detail_found env (title_link e) = true ∧
  pdf_renders env (sanitize_filename (sanitize_filename (pdf_filename e))) = true ∧
  html_renders env (sanitize_filename (sanitize_filename (html_filename e))) = true.

(** Where [generate_pdf] writes the file of an entry. *)
Definition pdf_local (p : processor) (e : entry) : string :=
  path_join (pdf_path p) (sanitize_filename (sanitize_filename (pdf_filename e))).

Definition html_local (p : processor) (e : entry) : string :=
  path_join (html_path p) (sanitize_filename (sanitize_filename (html_filename e))).

End Vocabulary.

(** A stand-in for the imports, to evaluate the definitions on concrete
    inputs: joining and stripping are kept trivial and the digest is left
    out, so that an identity reads as the concatenated key. *)
Definition demo : Externals := {|
  FDA_BASE_URL := "https://www.accessdata.fda.gov/scripts/cdrh/cfdocs/cfStandards/results.cfm";
  COLUMNS := [ "date_of_entry"; "specialty_task_group_area";
               "recognition_number"; "extent_of_recognition";
               "standards_developing_organization";
               "standard_designation_number_and_date";
               "standard_title"; "title_link" ];
  urljoin := λ base url, base +:+ url;
  md5_hexdigest := λ s, s;
  to_iso_date := λ v, v;
  py_strip := λ s, s;
  path_join := λ a b, a +:+ "/" +:+ b;
|}.

(** Rows of a listing page. *)
Definition ex_full : list td :=
  [ plain "01/02/2024"; plain "Cardiovascular"; plain "3-101";
    plain "Complete"; plain "AAMI"; plain "EC12:2000";
    linked "Disposable ECG electrodes" "detail.cfm?id=101" ].

Definition ex_cont : list td :=
  [ plain "ISO"; plain "5840:2015";
    linked "Cardiac valve prostheses" "detail.cfm?id=102" ].

Definition ex_cont_plain : list td :=
  [ plain "ISO"; plain "5840:2015"; plain "Cardiac valve prostheses" ].

(** The same rows with a title that has the word the header test looks
    for. *)
Definition ex_full_date : list td :=
  [ plain "01/02/2024"; plain "Software"; plain "13-120";
    plain "Complete"; plain "ISO"; plain "8601-1:2019";
    linked "Date and time - Representations for information interchange"
           "detail.cfm?id=103" ].

Definition ex_cont_date : list td :=
  [ plain "ISO"; plain "8601-2:2019";
    linked "Date and time - Extensions" "detail.cfm?id=104" ].

(** A header row given in [td] cells. *)
Definition ex_header : list td :=
  [ plain "Date of Entry"; plain "Specialty Task Group Area";
    plain "Recognition Number"; plain "Extent of Recognition";
    plain "Standards Developing Organization";
    plain "Standard Designation Number and Date";
    plain "Title of Standard" ].

(** A continuation row whose anchor has no [href]. *)
Definition ex_cont_no_href : list td :=
  [ plain "ISO"; plain "5840:2015";
    {| td_text := "Cardiac valve prostheses";
       td_a := Some {| a_text := "Cardiac valve prostheses";
                       a_href := None |} |} ].

(** A scraped record, a frame holding it twice, and a frame without the
    designation column. *)
Definition ex_record : row :=
  make_row (VStr "01/02/2024") (VStr "Cardiovascular") (VStr "3-101")
    (VStr "Complete") (VStr "AAMI") (VStr "EC12:2000")
    (VStr "Disposable ECG electrodes") (VStr "detail.cfm?id=101").

Definition ex_batch : DataFrame :=
  {| columns := @COLUMNS demo; rows := [ex_record; ex_record] |}.

Definition ex_frame_no_designation : DataFrame :=
  {| columns := [ "date_of_entry"; "specialty_task_group_area";
                  "recognition_number"; "extent_of_recognition";
                  "standards_developing_organization";
                  "standard_title"; "title_link" ];
     rows := [ delete "standard_designation_number_and_date" ex_record ] |}.

(** A catalogue of two rows that share the empty link, an entry read
    from it, and a processor; in [ex_world] both objects of the entry
    are in the bucket already. *)
Definition ex_catalog_row (number : string) : row :=
  <["aws_html_key" := VNone]>
    (<["aws_key" := VNone]>
       (<["unique_id" := VStr (number +:+ "|AAMI|EC12:2000")]>
          (make_row (VStr "2024-01-02") (VStr "Cardiovascular") (VStr number)
             (VStr "Complete") (VStr "AAMI") (VStr "EC12:2000")
             (VStr "Disposable ECG electrodes") (VStr "")))).

Definition ex_entry : entry :=
  {| title_link := VStr "";
     pdf_filename := "3-101_Disposable_ECG_electrodes.pdf";
     html_filename := "3-101_Disposable_ECG_electrodes.html" |}.

Definition ex_processor : processor :=
  {| pdf_path := "pdfs"; html_path := "htmls"; use_s3 := true |}.

Definition ex_world : world :=
  {| db := [ ex_catalog_row "3-101"; ex_catalog_row "3-102" ];
     bucket := {[ "FDA_STANDARDS/PDF/3-101_Disposable_ECG_electrodes.pdf";
                  "FDA_STANDARDS/HTML/3-101_Disposable_ECG_electrodes.html" ]};
     disk := ∅ |}.

Definition ex_world_fresh : world :=
  {| db := [ ex_catalog_row "3-101"; ex_catalog_row "3-102" ];
     bucket := ∅; disk := ∅ |}.

(** No upload ever succeeds. *)
Definition ex_env_no_upload : environment :=
  {| head_object := λ _, Answered;
     upload := λ _, ClientError;
     detail_found := λ _, true;
     pdf_renders := λ _, true;
     html_renders := λ _, true;
     database := Runs |}.

(** Uploads under [PDF/] succeed, the others fail. *)
Definition ex_env_pdf_only : environment :=
  {| head_object := λ _, Answered;
     upload := λ k, if String.prefix "FDA_STANDARDS/PDF/" k
                    then Uploaded else ClientError;
     detail_found := λ _, true;
     pdf_renders := λ _, true;
     html_renders := λ _, true;
     database := Runs |}.

(** ** The queries and reports of [fda_db_operations.py] *)

(** [str.split()] without argument, which the file names are built
    with; like the other library functions it is taken as given. *)
Class SplitLib := { py_split : string → list string }.

Module Queries.

Section Queries.

Context `{!Externals} `{!SplitLib}.

(** SQL [c IS NULL OR c = ''] on a cell. *)
Definition sql_null_or_empty (v : value) : bool :=
  match v with
  | VStr s => bool_decide (s = "")
  | _ => true
  end.

(** The [WHERE] clause of [get_unprocessed_standards]. *)
Definition unprocessed (r : row) : bool :=
  sql_null_or_empty (cell r "aws_key") ||
  sql_null_or_empty (cell r "aws_html_key").

(** What pandas reads back from a cell: NULL comes as [None]. *)
Definition sql_read (v : value) : value := if isna v then VNone else v.

Definition unprocessed_columns : list string :=
  [ "recognition_number"; "standard_title"; "title_link"; "unique_id" ].

(** The [SELECT] list of [get_unprocessed_standards] on one row. *)
Definition select_row (r : row) : row :=
  list_to_map ((λ c, (c, sql_read (cell r c))) <$> unprocessed_columns).

(** ['_'.join(title.split()[:3]).replace('/', '_').replace('\\', '_')] *)
Definition title_stem (title : string) : string :=
  replace_chars [ "\"%char ]
    (replace_chars [ "/"%char ]
       (String.concat "_" (take 3 (py_split title)))).

(** The two [df.apply] calls on one row; [None] is the
    [AttributeError] of [.split()] on a title that is not a string. *)
Definition with_filenames (r : row) : option row :=
  match cell r "standard_title" with
  | VStr title =>
      let stem := py_str (cell r "recognition_number") +:+ "_" +:+
                  title_stem title in
      Some (<["html_filename" := VStr (stem +:+ ".html")]>
              (<["pdf_filename" := VStr (stem +:+ ".pdf")]> r))
  | _ => None
  end.

(** [query_error] is an exception of the query itself; like the one of
    the [apply] it is caught and answered with [pd.DataFrame()]. *)
Definition get_unprocessed_standards (query_error : bool) (tbl : list row)
    : DataFrame :=
  if query_error then empty_frame
  else
    match select_row <$> filter (λ r, unprocessed r = true) tbl with
    | [] => {| columns := unprocessed_columns; rows := [] |}
    | selected =>
        match mapM with_filenames selected with
        | Some rs =>
            {| columns := unprocessed_columns ++
                          [ "pdf_filename"; "html_filename" ];
               rows := rs |}
        | None => empty_frame
        end
    end.

(** The dictionary [get_sync_status] returns. *)
Record status := { db_total : Z; db_processed : Z; pending : Z }.

Definition get_sync_status (status_error : bool) (tbl : list row) : status :=
  if status_error then {| db_total := 0; db_processed := 0; pending := 0 |}
  else
    let db_total := Z.of_nat (length tbl) in
    let db_processed :=
      Z.of_nat (length (filter (λ r, processed r = true) tbl)) in
    {| db_total := db_total; db_processed := db_processed;
       pending := db_total - db_processed |}.

Definition clear_s3_paths (r : row) : row :=
  <["aws_html_key" := VNone]> (<["aws_key" := VNone]> r).

(** Returns the table after the call with the returned boolean. *)
Definition reset_s3_paths (reset_error : bool) (tbl : list row)
    : list row * bool :=
  if reset_error then (tbl, false) else (clear_s3_paths <$> tbl, true).

(** What can go wrong during one call of [process_fda_standards]. *)
Record sync_faults := {
  (** [FDADatabaseOperations()] raises, with the text of the exception *)
  connect_error : option string;
  status_error : bool;
  store_faults : db_faults;
  query_error : bool;
}.

(** The dictionary [process_fda_standards] returns; a key it leaves out
    is [None]. *)
Record report := {
  success : bool;
  message : string;
  new_records : option nat;
  pending_pdfs : option nat;
  sync_status : option status;
  unprocessed_df : option DataFrame;
}.

Definition failure (message : string) : report :=
  {| success := false; message := message; new_records := None;
     pending_pdfs := None; sync_status := None; unprocessed_df := None |}.

(** Returns the table after the call with the report. [log_duplicates]
    only writes to the log and is left out. *)
Definition process_fda_standards (f : sync_faults) (tbl : list row)
    (df : DataFrame) : list row * report :=
  match connect_error f with
  | Some e => (tbl, failure e)
  | None =>
      let status := get_sync_status (status_error f) tbl in
      let '(tbl, (ok, message)) :=
        insert_new_standards (store_faults f) tbl df in
      if negb ok then (tbl, failure message)
      else
        let unprocessed := get_unprocessed_standards (query_error f) tbl in
        (tbl,
         {| success := true; message := message;
            new_records := Some (length (rows df));
            pending_pdfs := Some (length (rows unprocessed));
            sync_status := Some status;
            unprocessed_df := Some unprocessed |})
  end.

(** The row [process_unprocessed_standards] hands to [process_standard],
    as the latter reads it; [None] when a file name is not a string. *)
Definition entry_of_row (r : row) : option entry :=
  match cell r "pdf_filename", cell r "html_filename" with
  | VStr pdf, VStr html =>
      Some {| title_link := cell r "title_link";
              pdf_filename := pdf; html_filename := html |}
  | _, _ => None
  end.

(** [min(8, max(2, os.cpu_count() or 4))], [os.cpu_count()] being
    [None] or a number. *)
Definition max_workers (cpu_count : option nat) : nat :=
  Nat.min 8 (Nat.max 2 (match cpu_count with
                        | Some (S n) => S n
                        | _ => 4
                        end)).

End Queries.

End Queries.

Import Queries.

(** The text [generate_unique_id] hashes. *)
Definition key_string (recognition_number standards_developing_organization
    standard_designation_number_and_date : string) : string :=
  recognition_number +:+ "|" +:+ standards_developing_organization +:+ "|" +:+
  standard_designation_number_and_date.

(** The character does not occur in the string. *)
Fixpoint free_of (a : ascii) (s : string) : Prop :=
  match s with
  | EmptyString => True
  | String b rest => a ≠ b ∧ free_of a rest
  end.

(** A stand-in for [str.split()]: cut at blanks, drop empty pieces. *)
Fixpoint split_blanks (piece : string) (s : string) : list string :=
  match s with
  | EmptyString => if bool_decide (piece = "") then [] else [piece]
  | String a rest =>
      if bool_decide (a = " "%char) then
        (if bool_decide (piece = "") then [] else [piece])
          ++ split_blanks "" rest
      else split_blanks (piece +:+ String a "") rest
  end.

Definition demo_split : SplitLib := {| py_split := split_blanks "" |}.

(** The fields a row supplies itself. *)
Definition own_fields : list string :=
  [ "standards_developing_organization";
    "standard_designation_number_and_date"; "standard_title"; "title_link" ].

(** The offsets of the first [k] fetches of a crawl entered at
    [start]. *)
Definition offsets (start k : nat) : list nat :=
  (λ i, start + Scraper.PAGE_SIZE * i) <$> seq 0 k.

(** A page with its header in [td] cells, two full rows and rows of
    other widths between their continuation rows. *)
Definition ex_page : list (list td) :=
  [ ex_header; ex_full; ex_cont; [ plain "stray" ]; ex_cont_plain; [];
    ex_full_date; ex_cont_date ].

(** No title of the table is NULL. *)
Definition titles_present (tbl : list row) : Prop :=
  Forall (λ r, isna (cell r "standard_title") = false) tbl.

(** The unprocessed rows of a table, in table order. *)
Definition pending_rows (tbl : list row) : list row :=
  filter (λ r, unprocessed r = true) tbl.

(** A second record, and a frame of the two. *)
Definition ex_record2 : row :=
  make_row (VStr "01/02/2024") (VStr "Cardiovascular") (VStr "3-102")
    (VStr "Complete") (VStr "ISO") (VStr "5840:2015")
    (VStr "Cardiac valve prostheses") (VStr "detail.cfm?id=102").

Definition ex_batch_two : DataFrame :=
  {| columns := @COLUMNS demo; rows := [ex_record; ex_record2] |}.

(** A catalogue row whose title is NULL. *)
Definition ex_row_null_title : row :=
  <["standard_title" := VNone]> (ex_catalog_row "3-103").

(** Every collaborator answers well; the same with an update that
    raises. *)
Definition ex_env_fine : environment :=
  {| head_object := λ _, Answered;
     upload := λ _, Uploaded;
     detail_found := λ _, true;
     pdf_renders := λ _, true;
     html_renders := λ _, true;
     database := Runs |}.

Definition ex_env_update_raises : environment :=
  {| head_object := λ _, Answered;
     upload := λ _, Uploaded;
     detail_found := λ _, true;
     pdf_renders := λ _, true;
     html_renders := λ _, true;
     database := UpdateRaises |}.

(** An entry without a link, and a processor that keeps its files. *)
Definition ex_entry_null : entry :=
  {| title_link := VNone;
     pdf_filename := "3-101_Disposable_ECG_electrodes.pdf";
     html_filename := "3-101_Disposable_ECG_electrodes.html" |}.

Definition ex_processor_local : processor :=
  {| pdf_path := "pdfs"; html_path := "htmls"; use_s3 := false |}.

(** The world [ex_world_fresh] with the rendered PDF of [ex_entry] on
    the disk. *)
Definition ex_world_rendered : world :=
  {| db := db ex_world_fresh; bucket := ∅;
     disk := {[ "pdfs/3-101_Disposable_ECG_electrodes.pdf" ]} |}.

(** ** [main.py] *)

(** Where [run_full_pipeline] leaves: its three [return]s before the
    processing, the [return True] after it, and the [except]. *)
Inductive pipeline_exit :=
  NoData | SyncFailed | NothingToDo | Completed | Crashed.

(** The boolean [run_full_pipeline] returns there. *)
Definition returned (x : pipeline_exit) : bool :=
  match x with
  | NothingToDo | Completed => true
  | NoData | SyncFailed | Crashed => false
  end.

Record pipeline_faults := {
  sync_step : sync_faults;
  (** the query of [db_ops.get_unprocessed_standards()] in step 3 raises *)
  requery_error : bool;
}.

Section Pipeline.

Context `{!Externals} `{!SplitLib}.

(** [scraped] is the frame [scrape_fda_standards()] returned, and
    [process_unprocessed_standards] the processor's method as a function
    of the table, [None] when an exception leaves it. Returns the table
    after the call with the exit taken. The final status is only
    logged. *)
Definition run_full_pipeline (scraped : DataFrame) (f : pipeline_faults)
    (process_unprocessed_standards : list row → DataFrame → option (list row))
    (tbl : list row) : list row * pipeline_exit :=
  if df_empty scraped then (tbl, NoData)
  else
    let '(tbl, result) := process_fda_standards (sync_step f) tbl scraped in
    if negb (success result) then (tbl, SyncFailed)
    else if bool_decide (default 0 (new_records result) = 0) &&
            bool_decide (default 0 (pending_pdfs result) = 0)
    then (tbl, NothingToDo)
    else
      let unprocessed_df := get_unprocessed_standards (requery_error f) tbl in
      if negb (df_empty unprocessed_df) then
        match process_unprocessed_standards tbl unprocessed_df with
        | Some tbl => (tbl, Completed)
        | None => (tbl, Crashed)
        end
      else (tbl, Completed).

End Pipeline.

(** Two tactics for statements on [process_standard]: the first makes
    the names and keys of the entry abstract, the second splits on the
    collaborators' answers, dropping at once the runs the hypotheses
    exclude. *)
Ltac process_names p env w e :=
  unfold process_standard, both_exist, both_uploaded, renders_both,
    pdf_local, html_local, generate, upload_file, record_paths, os_remove;
  generalize (pdf_key e) (html_key e) (sanitize_filename (pdf_filename e))
    (sanitize_filename (html_filename e));
  intros k1 k2 n1 n2;
  generalize (path_join (pdf_path p) (sanitize_filename n1))
    (path_join (html_path p) (sanitize_filename n2))
    (pdf_renders env (sanitize_filename n1))
    (html_renders env (sanitize_filename n2));
  intros l1 l2 b1 b2.

Ltac split_on t := destruct t eqn:?; cbn in *; try congruence.

Ltac split_probe t :=
  first [ lazymatch goal with
          | |- context [t] => idtac
          | _ : context [t] |- _ => idtac
          end;
          destruct t as [[|]|] eqn:?; cbn in *; try congruence
        | idtac ].

Ltac process_runs p env w e k1 k2 b1 b2 :=
  split_on (use_s3 p); split_probe (file_exists env w k1);
  split_probe (file_exists env w k2);
  split_on (detail_found env (title_link e));
  split_on b1; split_on b2;
  repeat (case_match; simplify_eq; cbn in *; try congruence);
  repeat match goal with
         | H : bool_decide _ = true |- _ => apply bool_decide_eq_true in H
         | H : bool_decide _ = false |- _ => apply bool_decide_eq_false in H
         end.

(** ** The reconstructor *)

Section ScraperFacts.

Context `{!Externals}.

Lemma make_row_date c0 c1 c2 c3 s d t l :
  make_row c0 c1 c2 c3 s d t l !! "date_of_entry" = Some c0.
Proof. vm_compute. reflexivity. Qed.

Lemma make_row_area c0 c1 c2 c3 s d t l :
  make_row c0 c1 c2 c3 s d t l !! "specialty_task_group_area" = Some c1.
Proof. vm_compute. reflexivity. Qed.

Lemma make_row_number c0 c1 c2 c3 s d t l :
  make_row c0 c1 c2 c3 s d t l !! "recognition_number" = Some c2.
Proof. vm_compute. reflexivity. Qed.

Lemma make_row_extent c0 c1 c2 c3 s d t l :
  make_row c0 c1 c2 c3 s d t l !! "extent_of_recognition" = Some c3.
Proof. vm_compute. reflexivity. Qed.

Lemma make_row_link c0 c1 c2 c3 s d t l :
  make_row c0 c1 c2 c3 s d t l !! "title_link" = Some l.
Proof. vm_compute. reflexivity. Qed.

(** The accumulator only ever grows at its end. *)
Lemma rows_loop_acc trs acc c ht :
  rows_loop trs acc c ht =
  (λ p, (acc ++ p.1, p.2)) <$> rows_loop trs [] c ht.
Proof.
  revert acc c ht. induction trs as [|tds trs IH]; intros acc c ht; simpl.
  - by rewrite app_nil_r.
  - destruct (classify tds c ht) as [ht'|r c'| |]; try done.
    rewrite (IH (acc ++ [r])), (IH [r]).
    destruct (rows_loop trs [] c' ht) as [[rs h]|]; simpl; [|done].
    by rewrite <- app_assoc.
Qed.

Lemma make_row_sdo c0 c1 c2 c3 s d t l :
  make_row c0 c1 c2 c3 s d t l !! "standards_developing_organization" = Some s.
Proof. vm_compute. reflexivity. Qed.

Lemma make_row_carried c0 c1 c2 c3 s d t l i f :
  carried_fields !! i = Some f →
  make_row c0 c1 c2 c3 s d t l !! f = [c0; c1; c2; c3] !! i.
Proof.
  destruct i as [|[|[|[|i]]]]; simpl; intros [= <-];
    auto using make_row_date, make_row_area, make_row_number,
               make_row_extent.
Qed.

Lemma link_of_cases t :
  match link_of t with
  | Some l =>
      (td_a t = None ∧ l = VStr "") ∨
      (∃ a h, td_a t = Some a ∧ a_href a = Some h ∧
              l = VStr (urljoin FDA_BASE_URL h))
  | None => has_href t = false
  end.
Proof.
  unfold link_of, has_href. destruct (td_a t) as [a|]; [|by left].
  destruct (a_href a) as [h|] eqn:Hh.
  - right. by exists a, h.
  - apply bool_decide_eq_false. by intros [? ?].
Qed.

Lemma link_of_has_href t : has_href t = true → is_Some (link_of t).
Proof.
  intros Ht. pose proof (link_of_cases t) as Hc.
  destruct (link_of t); [done | congruence].
Qed.

(** What a row that yields a record looks like. *)
Lemma classify_emit tds c ht r c' :
  classify tds c ht = Emit r c' →
  header_skip ht (td_text <$> tds) = None ∧
  ((∃ t0 t1 t2 t3 t4 t5 t6 rest link,
      tds = t0 :: t1 :: t2 :: t3 :: t4 :: t5 :: t6 :: rest ∧
      link_of t6 = Some link ∧
      r = make_row (VStr (td_text t0)) (VStr (td_text t1))
            (VStr (td_text t2)) (VStr (td_text t3)) (VStr (td_text t4))
            (VStr (td_text t5)) (title_of t6) link ∧
      c' = (VStr (td_text t0), VStr (td_text t1),
            VStr (td_text t2), VStr (td_text t3))) ∨
   (∃ t0 t1 t2 link,
      tds = [t0; t1; t2] ∧ link_of t2 = Some link ∧
      r = make_row c.1.1.1 c.1.1.2 c.1.2 c.2
            (VStr (td_text t0)) (VStr (td_text t1)) (title_of t2) link ∧
      c' = c)).
Proof.
  unfold classify. destruct tds as [|t0 tds]; [done|].
  destruct (header_skip ht (td_text <$> t0 :: tds)) as [h|]; [done|].
  intros Hc. split; [done|].
  destruct tds as [|t1 [|t2 [|t3 [|t4 [|t5 [|t6 rest]]]]]]; try done.
  - destruct (link_of t2) as [link|] eqn:Hl; [|done].
    destruct c as [[[c0 c1] c2] c3]. injection Hc as <- <-.
    right. by exists t0, t1, t2, link.
  - destruct (link_of t6) as [link|] eqn:Hl; [|done].
    injection Hc as <- <-.
    left. by exists t0, t1, t2, t3, t4, t5, t6, rest, link.
Qed.

Lemma classify_full c ht t0 t1 t2 t3 t4 t5 t6 rest link :
  header_skip ht (td_text <$> t0 :: t1 :: t2 :: t3 :: t4 :: t5 :: t6 :: rest) = None →
  link_of t6 = Some link →
  classify (t0 :: t1 :: t2 :: t3 :: t4 :: t5 :: t6 :: rest) c ht =
  Emit (make_row (VStr (td_text t0)) (VStr (td_text t1))
          (VStr (td_text t2)) (VStr (td_text t3)) (VStr (td_text t4))
          (VStr (td_text t5)) (title_of t6) link)
       (VStr (td_text t0), VStr (td_text t1),
        VStr (td_text t2), VStr (td_text t3)).
Proof. intros Hh Hl. unfold classify. by rewrite Hh, Hl. Qed.

Lemma classify_continuation c0 c1 c2 c3 ht t0 t1 t2 link :
  header_skip ht (td_text <$> [t0; t1; t2]) = None →
  link_of t2 = Some link →
  classify [t0; t1; t2] (c0, c1, c2, c3) ht =
  Emit (make_row c0 c1 c2 c3 (VStr (td_text t0)) (VStr (td_text t1))
          (title_of t2) link)
       (c0, c1, c2, c3).
Proof. intros Hh Hl. unfold classify. by rewrite Hh, Hl. Qed.

(** With an [href] on every anchor no row raises. *)
Lemma classify_no_error tds c ht :
  Forall (λ t, has_href t = true) tds → classify tds c ht ≠ KeyError.
Proof.
  intros Hok. unfold classify. destruct tds as [|t0 tds]; [done|].
  destruct (header_skip ht (td_text <$> t0 :: tds)) as [h|]; [done|].
  destruct tds as [|t1 [|t2 [|t3 [|t4 [|t5 [|t6 rest]]]]]]; try done.
  - assert (is_Some (link_of t2)) as [l ->]; [|by destruct c as [[[??]?]?]].
    apply link_of_has_href.
    by repeat (apply Forall_cons in Hok as [? Hok]).
  - assert (is_Some (link_of t6)) as [l ->]; [|done].
    apply link_of_has_href.
    by repeat (apply Forall_cons in Hok as [? Hok]).
Qed.

Lemma rows_loop_total trs acc c ht :
  anchors_ok trs → is_Some (rows_loop trs acc c ht).
Proof.
  revert acc c ht. induction trs as [|tds trs IH]; intros acc c ht Hok;
    simpl; [done|].
  apply Forall_cons in Hok as [Htds Hok].
  pose proof (classify_no_error tds c ht Htds).
  destruct (classify tds c ht); try done; by apply IH.
Qed.

(** Every record of a page comes from a row of it. *)
Lemma rows_loop_origin trs acc c ht rs ht' r :
  rows_loop trs acc c ht = Some (rs, ht') → r ∈ rs →
  r ∈ acc ∨ ∃ tds c0 h0 c1, tds ∈ trs ∧ classify tds c0 h0 = Emit r c1.
Proof.
  revert acc c ht. induction trs as [|tds trs IH]; intros acc c ht; simpl.
  - intros [= <- <-] Hr. by left.
  - destruct (classify tds c ht) as [h|r' c'| |] eqn:Hc; try done;
      intros Hl Hr; destruct (IH _ _ _ Hl Hr) as [Hacc|(t&a&b&d&Ht&He)];
      try (by left);
      try (right; exists t, a, b, d; split; [by right|done]).
    apply elem_of_app in Hacc as [Hacc|Hacc]; [by left|].
    apply list_elem_of_singleton in Hacc as ->.
    right. exists tds, c, ht, c'. split; [by left|done].
Qed.

Lemma dropped_rows_loop ht pre ht1 trs acc :
  dropped_rows ht pre = Some ht1 →
  rows_loop (pre ++ trs) acc carry0 ht = rows_loop trs acc carry0 ht1.
Proof.
  revert ht. induction pre as [|tds pre IH]; intros ht; simpl.
  - by intros [= ->].
  - destruct (classify tds carry0 ht); try done; apply IH.
Qed.

Lemma frame_row_lookup d f :
  f ∈ COLUMNS →
  frame_row d !! f = Some (VStr (py_str (fillna "" (cell d f)))).
Proof.
  unfold frame_row. induction COLUMNS as [|c cs IH]; simpl.
  - by intros ?%elem_of_nil.
  - intros Hf. destruct (decide (c = f)) as [->|Hne].
    + by rewrite lookup_insert_eq.
    + rewrite lookup_insert_ne by done. apply IH.
      by apply elem_of_cons in Hf as [->|?].
Qed.

End ScraperFacts.

(** ** The crawl *)

Section CrawlFacts.

Context `{!Externals}.

(** One iteration: stop on a short page, keeping its records, or go on
    [PAGE_SIZE] further. *)
Lemma scrape_loop_step fuel src start ht all_rows fetched :
  scrape_loop (S fuel) src start ht all_rows fetched =
  if bool_decide (length (page_yield src start ht) < PAGE_SIZE)
  then Some (all_rows ++ page_yield src start ht, fetched ++ [start])
  else scrape_loop fuel src (start + PAGE_SIZE) (next_template src start ht)
         (all_rows ++ page_yield src start ht) (fetched ++ [start]).
Proof.
  unfold page_yield, next_template. simpl.
  destruct (src start ≫= _) as [[page_rows h]|]; simpl;
    repeat case_bool_decide; simplify_eq/=;
    rewrite ?app_nil_r; try done; unfold PAGE_SIZE in *; lia.
Qed.

(** Whatever the loop returns extends what it was entered with, and
    the offset it was entered at is fetched next. *)
Lemma scrape_loop_extends fuel src start ht all_rows fetched rs fs :
  scrape_loop fuel src start ht all_rows fetched = Some (rs, fs) →
  ∃ more_rows more, rs = all_rows ++ more_rows ∧
                    fs = fetched ++ start :: more.
Proof.
  revert start ht all_rows fetched.
  induction fuel as [|fuel IH]; intros start ht all_rows fetched; [done|].
  rewrite scrape_loop_step. case_bool_decide.
  - intros [= <- <-]. by exists (page_yield src start ht), [].
  - intros (more_rows & more & -> & ->)%IH.
    exists (page_yield src start ht ++ more_rows), ((start + PAGE_SIZE) :: more).
    by rewrite <- !app_assoc.
Qed.

Lemma mock_tr_classify i c :
  classify (mock_tr i) c None =
  Emit (mock_record i)
       (VStr "01/02/2024", VStr "General", VStr "1-100", VStr "Complete").
Proof. reflexivity. Qed.

Lemma rows_loop_mock l acc c :
  rows_loop (mock_tr <$> l) acc c None = Some (acc ++ (mock_record <$> l), None).
Proof.
  revert acc c. induction l as [|i l IH]; intros acc c.
  - by rewrite app_nil_r.
  - rewrite !fmap_cons. cbn [rows_loop]. rewrite mock_tr_classify, IH.
    by rewrite <- app_assoc.
Qed.

Lemma mock_source_page n start :
  mock_source n start ≫= (λ s, extract_table_rows s None) =
  Some (mock_record <$> seq start (Nat.min PAGE_SIZE (S n - start)), None).
Proof. unfold mock_source. simpl. apply rows_loop_mock. Qed.

Lemma page_yield_mock n start :
  page_yield (mock_source n) start None =
  mock_record <$> seq start (Nat.min PAGE_SIZE (S n - start)).
Proof. unfold page_yield. by rewrite mock_source_page. Qed.

Lemma next_template_mock n start :
  next_template (mock_source n) start None = None.
Proof. unfold next_template. by rewrite mock_source_page. Qed.

Lemma length_page_yield_mock n start :
  length (page_yield (mock_source n) start None) =
  Nat.min PAGE_SIZE (S n - start).
Proof. by rewrite page_yield_mock, length_fmap, length_seq. Qed.

(** The crawl of a listing of [n] records from any offset: with one
    unit of fuel more than there are full pages left it returns the
    remaining records in order, having fetched once per full page and
    once more. *)
Lemma scrape_loop_mock fuel n start all_rows fetched :
  (start ≤ S n)%nat →
  ((S n - start) / PAGE_SIZE < fuel)%nat →
  scrape_loop fuel (mock_source n) start None all_rows fetched
  = Some (all_rows ++ (mock_record <$> seq start (S n - start)),
          fetched ++ ((λ i, start + PAGE_SIZE * i)
                        <$> seq 0 (S ((S n - start) / PAGE_SIZE)))).
Proof.
  revert start all_rows fetched.
  induction fuel as [|fuel IH]; intros start all_rows fetched Hs Hf; [lia|].
  rewrite scrape_loop_step, next_template_mock, page_yield_mock,
    length_fmap, length_seq.
  unfold PAGE_SIZE in *.
  destruct (decide (S n - start < 500)) as [Hlt|Hge].
  - rewrite bool_decide_eq_true_2 by lia.
    rewrite Nat.min_r by lia. rewrite Nat.div_small by lia.
    cbn [seq fmap list_fmap]. by rewrite Nat.mul_0_r, Nat.add_0_r.
  - rewrite bool_decide_eq_false_2 by lia.
    rewrite Nat.min_l by lia.
    assert ((S n - start) / 500 = S ((S n - (start + 500)) / 500)) as Hdiv.
    { replace (S n - start) with (S n - (start + 500) + 1 * 500) by lia.
      rewrite Nat.div_add by lia. lia. }
    rewrite IH by lia. rewrite Hdiv. f_equal. f_equal.
    + rewrite <- app_assoc, <- fmap_app. f_equal. f_equal.
      replace (S n - start) with (500 + (S n - (start + 500))) by lia.
      by rewrite seq_app.
    + rewrite <- app_assoc. f_equal.
      rewrite <- (cons_seq (S ((S n - (start + 500)) / 500)) 0).
      rewrite (fmap_cons _ 0). cbn [app].
      rewrite Nat.mul_0_r, Nat.add_0_r. f_equal.
      rewrite <- (fmap_S_seq 0), <- list_fmap_compose.
      apply list_fmap_ext. intros _ i _. cbn [compose]. lia.
Qed.

End CrawlFacts.

(** ** Claims on the reconstructor *)

Section ReconstructorClaims.

Context `{!Externals}.

(** C2 (as the code has it). A page table of one row of at least seven cells
    followed by one row of exactly three cells, neither of which the
    header test skips and whose anchors have an [href], yields exactly
    two records in row order, and the four carried fields of the second
    are the texts of the first four cells of the first row (the same
    values the first record has). *)
Theorem full_row_then_continuation ht (full cont : list td) :
  (7 ≤ length full)%nat →
  length cont = 3 →
  header_skip ht (td_text <$> full) = None →
  header_skip ht (td_text <$> cont) = None →
  anchors_ok [full; cont] →
  ∃ r1 r2 : row,
    extract_table_rows (Some [full; cont]) ht = Some ([r1; r2], ht) ∧
    (∀ i f, carried_fields !! i = Some f →
       r2 !! f = (VStr ∘ td_text) <$> full !! i ∧ r1 !! f = r2 !! f) ∧
    r1 !! "standards_developing_organization"
      = (VStr ∘ td_text) <$> full !! 4 ∧
    r2 !! "standards_developing_organization"
      = (VStr ∘ td_text) <$> cont !! 0.
Proof.
  intros Hfull Hcont Hh1 Hh2 Hok.
  destruct full as [|t0 [|t1 [|t2 [|t3 [|t4 [|t5 [|t6 rest]]]]]]];
    simpl in Hfull; try lia.
  destruct cont as [|u0 [|u1 [|u2 [|u3 cont]]]]; simpl in Hcont; try lia.
  apply Forall_cons in Hok as [Hok1 Hok2].
  apply Forall_cons in Hok2 as [Hok2 _].
  assert (is_Some (link_of t6)) as [l1 Hl1].
  { apply link_of_has_href.
    by repeat (apply Forall_cons in Hok1 as [? Hok1]). }
  assert (is_Some (link_of u2)) as [l2 Hl2].
  { apply link_of_has_href.
    by repeat (apply Forall_cons in Hok2 as [? Hok2]). }
  eexists _, _. split.
  - unfold extract_table_rows. cbn [rows_loop].
    rewrite (classify_full carry0 ht t0 t1 t2 t3 t4 t5 t6 rest l1 Hh1 Hl1).
    by rewrite (classify_continuation _ _ _ _ ht u0 u1 u2 l2 Hh2 Hl2).
  - rewrite !make_row_sdo. split; [|done].
    intros i f Hf. rewrite !(make_row_carried _ _ _ _ _ _ _ _ i f Hf).
    by destruct i as [|[|[|[|i]]]].
Qed.

(** C7 (as the code has it). When every row in front of it is dropped by the loop
    and the header test does not skip it, a row of exactly three cells
    whose anchors (and those of the rows behind it) have an [href]
    yields the first record of the page; its four carried fields are
    [None] in what [extract_table_rows] returns and the empty string in
    the frame [scrape_fda_standards] builds. *)
Theorem leading_continuation_row ht ht1 (pre rest : list (list td))
    (cont : list td) :
  dropped_rows ht pre = Some ht1 →
  length cont = 3 →
  header_skip ht1 (td_text <$> cont) = None →
  anchors_ok (cont :: rest) →
  ∃ (r : row) more ht',
    extract_table_rows (Some (pre ++ cont :: rest)) ht
      = Some (r :: more, ht') ∧
    (∀ f, f ∈ carried_fields → r !! f = Some VNone) ∧
    (∀ f, f ∈ carried_fields → f ∈ COLUMNS →
       head (rows (to_frame (r :: more))) ≫= (.!! f) = Some (VStr "")).
Proof.
  intros Hpre Hcont Hh Hok.
  destruct cont as [|u0 [|u1 [|u2 [|u3 cont]]]]; simpl in Hcont; try lia.
  apply Forall_cons in Hok as [Hok1 Hok].
  assert (is_Some (link_of u2)) as [l Hl].
  { apply link_of_has_href.
    by repeat (apply Forall_cons in Hok1 as [? Hok1]). }
  unfold extract_table_rows.
  rewrite (dropped_rows_loop _ _ _ _ _ Hpre). cbn [rows_loop].
  unfold carry0.
  rewrite (classify_continuation _ _ _ _ ht1 u0 u1 u2 l Hh Hl), rows_loop_acc.
  destruct (rows_loop_total rest [] (VNone, VNone, VNone, VNone) ht1 Hok)
    as [[more ht'] ->].
  simpl. eexists _, more, ht'. split; [done|].
  assert (∀ f, f ∈ carried_fields →
            make_row VNone VNone VNone VNone (VStr (td_text u0))
              (VStr (td_text u1)) (title_of u2) l !! f = Some VNone) as Hn.
  { intros f (i & Hi)%list_elem_of_lookup.
    rewrite (make_row_carried _ _ _ _ _ _ _ _ i f Hi).
    by destruct i as [|[|[|[|i]]]]. }
  split; [done|]. intros f Hf Hc.
  rewrite (frame_row_lookup _ _ Hc). unfold cell.
  by rewrite (lookup_total_correct _ _ _ (Hn f Hf)).
Qed.


End ReconstructorClaims.

Lemma full_row_then_continuation_witness :
  ∃ r1 r2 : row,
    @extract_table_rows demo (Some [ex_full; ex_cont]) None
      = Some ([r1; r2], None) ∧
    (∀ i f, carried_fields !! i = Some f →
       r2 !! f = (VStr ∘ td_text) <$> ex_full !! i ∧ r1 !! f = r2 !! f) ∧
    r1 !! "standards_developing_organization"
      = (VStr ∘ td_text) <$> ex_full !! 4 ∧
    r2 !! "standards_developing_organization"
      = (VStr ∘ td_text) <$> ex_cont !! 0.
Proof.
  apply (@full_row_then_continuation demo None ex_full ex_cont).
  - simpl. lia.
  - reflexivity.
  - vm_compute. reflexivity.
  - vm_compute. reflexivity.
  - repeat constructor.
Defined.

(** C2 as stated fails when the full row has the word [Date] in a cell
    and no header has been seen yet: the row is taken for the header,
    and the page yields one record, whose recognition number is [None]
    and not [13-120]. It also fails when an anchor has no [href]: the
    call raises and yields nothing. *)
Lemma date_title_full_row_is_dropped :
  field_of_records "recognition_number"
    (@extract_table_rows demo (Some [ex_full_date; ex_cont]) None)
  = Some [Some VNone] ∧
  @extract_table_rows demo (Some [ex_full; ex_cont_no_href]) None = None.
Proof. split; vm_compute; reflexivity. Qed.

Lemma leading_continuation_row_witness :
  ∃ (r : row) more ht',
    @extract_table_rows demo (Some ([ex_header] ++ ex_cont :: [ex_full])) None
      = Some (r :: more, ht') ∧
    (∀ f, f ∈ carried_fields → r !! f = Some VNone) ∧
    (∀ f, f ∈ carried_fields → f ∈ @COLUMNS demo →
       head (rows (@to_frame demo (r :: more))) ≫= (.!! f) = Some (VStr "")).
Proof.
  apply (@leading_continuation_row demo None (Some (td_text <$> ex_header))).
  - vm_compute. reflexivity.
  - reflexivity.
  - vm_compute. reflexivity.
  - repeat constructor.
Defined.

(** C7 as stated fails on a leading row of three cells in two ways: with
    the word [Date] in its title and no header seen yet it is taken for
    the header and yields no record, and with an anchor that has no
    [href] the whole call raises. *)
Lemma leading_continuation_row_can_yield_nothing :
  field_of_records "title_link"
    (@extract_table_rows demo (Some [ex_cont_date]) None) = Some [] ∧
  @extract_table_rows demo (Some [ex_cont_no_href]) None = None.
Proof. split; vm_compute; reflexivity. Qed.



(** ** Claims on the crawl *)

Section CrawlClaims.

Context `{!Externals}.

(** C4. An iteration of the crawl that obtains fewer than 500 records
    at its offset (none at all included) ends the crawl with these
    records appended; one that obtains 500 or more goes on and fetches
    500 further. On a listing of [n] records the crawl ends as soon as
    it is given one iteration more than there are full pages, with the
    [n] records in order and one fetch per full page and one more. On a
    listing of 1300 records the crawl, given any three or more
    iterations, fetches at 1, 501 and 1001 only, obtains 500, 500 and 300
    records there, and returns the 1300 records in order. *)
Theorem pagination_ends_on_short_page :
  (∀ src start ht all_rows fetched fuel,
     (length (page_yield src start ht) < PAGE_SIZE →
      scrape_loop (S fuel) src start ht all_rows fetched
        = Some (all_rows ++ page_yield src start ht, fetched ++ [start])) ∧
     ((PAGE_SIZE ≤ length (page_yield src start ht))%nat →
      scrape_loop (S fuel) src start ht all_rows fetched
        = scrape_loop fuel src (start + PAGE_SIZE)
            (next_template src start ht)
            (all_rows ++ page_yield src start ht) (fetched ++ [start]) ∧
      ∀ rs fs,
        scrape_loop (S (S fuel)) src start ht all_rows fetched
          = Some (rs, fs) →
        ∃ more, fs = fetched ++ start :: (start + PAGE_SIZE) :: more)) ∧
  PAGE_SIZE = 500 ∧
  (∀ n fuel, (n / PAGE_SIZE < fuel)%nat →
     scrape_loop fuel (mock_source n) 1 None [] []
       = Some (mock_record <$> seq 1 n,
               (λ i, 1 + PAGE_SIZE * i) <$> seq 0 (S (n / PAGE_SIZE)))) ∧
  (∀ fuel, (3 ≤ fuel)%nat →
     scrape_loop fuel (mock_source 1300) 1 None [] []
       = Some (mock_record <$> seq 1 1300, [1; 501; 1001]) ∧
     scrape_fda_standards fuel (mock_source 1300)
       = Some (to_frame (mock_record <$> seq 1 1300), [1; 501; 1001])) ∧
  (λ start, length (page_yield (mock_source 1300) start None))
    <$> [1; 501; 1001] = [500; 500; 300].
Proof.
  split; [|split; [done|split; [|split]]].
  - intros src start ht all_rows fetched fuel. split.
    + intros Hlt. by rewrite scrape_loop_step, bool_decide_eq_true_2.
    + intros Hge.
      assert (scrape_loop (S fuel) src start ht all_rows fetched
              = scrape_loop fuel src (start + PAGE_SIZE)
                  (next_template src start ht)
                  (all_rows ++ page_yield src start ht)
                  (fetched ++ [start])) as Hstep.
      { intros. by rewrite scrape_loop_step, bool_decide_eq_false_2 by lia. }
      split; [done|]. intros rs fs.
      rewrite scrape_loop_step, bool_decide_eq_false_2 by lia.
      intros (more_rows & more & _ & ->)%scrape_loop_extends.
      exists more. by rewrite <- app_assoc.
  - intros n fuel Hfuel.
    rewrite scrape_loop_mock; replace (S n - 1) with n by lia; [done|lia..].
  - intros fuel Hfuel.
    assert (scrape_loop fuel (mock_source 1300) 1 None [] []
            = Some (mock_record <$> seq 1 1300, [1; 501; 1001])) as Hloop.
    { destruct fuel as [|[|[|fuel]]]; try lia.
      rewrite scrape_loop_step, next_template_mock, page_yield_mock,
        length_fmap, length_seq.
      rewrite bool_decide_eq_false_2 by (vm_compute; lia).
      rewrite scrape_loop_step, next_template_mock, page_yield_mock,
        length_fmap, length_seq.
      rewrite bool_decide_eq_false_2 by (vm_compute; lia).
      rewrite scrape_loop_step, page_yield_mock, length_fmap, length_seq.
      rewrite bool_decide_eq_true_2 by (vm_compute; lia).
      change (1 + PAGE_SIZE) with 501.
      change (501 + PAGE_SIZE) with 1001.
      change (Nat.min PAGE_SIZE (1301 - 1)) with 500.
      change (Nat.min PAGE_SIZE (1301 - 501)) with 500.
      change (Nat.min PAGE_SIZE (1301 - 1001)) with 300.
      rewrite app_nil_l, <- !fmap_app.
      change 501 with (1 + 500) at 1. rewrite <- seq_app.
      change 1001 with (1 + (500 + 500)) at 1. by rewrite <- seq_app. }
    split; [done|]. unfold scrape_fda_standards. by rewrite Hloop.
  - rewrite !fmap_cons, !length_page_yield_mock. reflexivity.
Qed.

End CrawlClaims.

Lemma pagination_ends_on_short_page_witness :
  @scrape_loop demo 3 (mock_source 1300) 1 None [] []
    = Some (@mock_record demo <$> seq 1 1300, [1; 501; 1001]) ∧
  @scrape_loop demo 1 (mock_source 1300) 1001 None [] []
    = Some ([] ++ @page_yield demo (mock_source 1300) 1001 None,
            [] ++ [1001]).
Proof.
  destruct (@pagination_ends_on_short_page demo)
    as (Hstep & _ & _ & Hmock & _).
  split.
  - apply Hmock. lia.
  - apply Hstep. rewrite length_page_yield_mock. vm_compute. lia.
Defined.

(** ** The synchroniser *)

Section CatalogFacts.

Context `{!Externals}.

Lemma existing_ids_table_ids tbl : existing_ids tbl = list_to_set (table_ids tbl).
Proof. reflexivity. Qed.

Lemma table_ids_id_cells l :
  table_ids l = omap (λ v, match v with VStr s => Some s | _ => None end)
                     (id_cells l).
Proof.
  unfold table_ids, id_cells. induction l as [|r l IH]; [done|].
  rewrite fmap_cons. cbn [omap list_omap]. rewrite <- IH. done.
Qed.

Lemma table_ids_app a b : table_ids (a ++ b) = table_ids a ++ table_ids b.
Proof. apply omap_app. Qed.

Lemma existing_ids_app a b :
  existing_ids (a ++ b) = existing_ids a ∪ existing_ids b.
Proof.
  rewrite !existing_ids_table_ids, table_ids_app.
  apply list_to_set_app_L.
Qed.

Lemma cell_insert_eq (r : row) c v : cell (<[c := v]> r) c = v.
Proof. apply lookup_total_insert_eq. Qed.

Lemma cell_insert_ne (r : row) c c' v :
  c ≠ c' → cell (<[c := v]> r) c' = cell r c'.
Proof. apply lookup_total_insert_ne. Qed.

Lemma id_cells_add_id (l : list row) : id_cells (add_id <$> l) = VStr ∘ row_unique_id <$> l.
Proof.
  unfold id_cells. rewrite <- list_fmap_compose.
  apply list_fmap_ext. intros _ r _. apply cell_insert_eq.
Qed.

Lemma table_ids_add_id (l : list row) : table_ids (add_id <$> l) = row_unique_id <$> l.
Proof.
  rewrite table_ids_id_cells, id_cells_add_id.
  induction l as [|r l IH]; [done|].
  rewrite !fmap_cons. cbn [omap list_omap compose]. by rewrite IH.
Qed.

Lemma assign_id_cells c g df :
  c ≠ "unique_id" → id_cells (rows (assign c g df)) = id_cells (rows df).
Proof.
  intros Hc. unfold id_cells, assign. simpl. rewrite <- list_fmap_compose.
  apply list_fmap_ext. intros _ r _. by apply cell_insert_ne.
Qed.

Lemma apply_default_id_cells df col d :
  col ≠ "unique_id" →
  id_cells (rows (apply_default df (col, d))) = id_cells (rows df).
Proof.
  intros Hc. unfold apply_default.
  case_bool_decide; [destruct d|]; by apply assign_id_cells.
Qed.

(** Preparing the frame for [to_sql] leaves the identities alone. *)
Lemma prepare_id_cells d : id_cells (rows (prepare d)) = id_cells (rows d).
Proof.
  unfold prepare, defaults. cbn [foldl].
  rewrite !apply_default_id_cells by done.
  case_bool_decide; by rewrite !assign_id_cells by done.
Qed.

Lemma prepare_table_ids d : table_ids (rows (prepare d)) = table_ids (rows d).
Proof. by rewrite !table_ids_id_cells, prepare_id_cells. Qed.

Lemma filter_add_id (ids : gset string) (l : list row) :
  filter (λ r, isin ids (cell r "unique_id") = false) (add_id <$> l) =
  add_id <$> filter (λ r, row_unique_id r ∉ ids) l.
Proof.
  induction l as [|r l IH]; [done|].
  rewrite fmap_cons, !filter_cons, IH.
  assert (isin ids (cell (add_id r) "unique_id") = false
          ↔ row_unique_id r ∉ ids) as Hiff.
  { unfold add_id. rewrite cell_insert_eq. simpl.
    by rewrite bool_decide_eq_false. }
  repeat case_decide; try done; exfalso; tauto.
Qed.

(** What [check_duplicates] returns, row-wise. *)
Lemma check_duplicates_rows f tbl df :
  rows (check_duplicates f tbl df) =
  if accepted df && bool_decide (select_error f = None)
  then add_id <$> new_rows tbl df
  else [].
Proof.
  unfold check_duplicates, accepted, new_rows.
  destruct (df_empty df); [done|]. simpl.
  case_bool_decide as Hm.
  - rewrite bool_decide_eq_false_2; [done|]. done.
  - rewrite (bool_decide_eq_true_2 _ Hm). simpl.
    destruct (select_error f); [done|]. simpl. apply filter_add_id.
Qed.

Lemma df_empty_rows cs (rs : list row) :
  cs ≠ [] → df_empty {| columns := cs; rows := rs |} = true → rs = [].
Proof.
  intros Hcs [Hc|Hr]%orb_true_iff.
  - by apply bool_decide_eq_true in Hc.
  - by apply bool_decide_eq_true in Hr.
Qed.

Lemma check_duplicates_empty f tbl df :
  df_empty (check_duplicates f tbl df) = true →
  rows (check_duplicates f tbl df) = [].
Proof.
  unfold check_duplicates.
  destruct (df_empty df) eqn:He; [intros _; reflexivity|].
  case_bool_decide; [intros _; reflexivity|].
  destruct (select_error f); [intros _; reflexivity|].
  apply df_empty_rows. cbn [columns assign].
  apply orb_false_iff in He as [He _]. apply bool_decide_eq_false in He.
  case_bool_decide; [done|]. by destruct (columns df).
Qed.

Lemma length_id_cells l : length (id_cells l) = length l.
Proof. apply length_fmap. Qed.

Lemma prepare_length d : length (rows (prepare d)) = length (rows d).
Proof.
  rewrite <- (length_id_cells (rows (prepare d))), prepare_id_cells.
  apply length_id_cells.
Qed.

(** A run on a working store appends the prepared new records. *)
Lemma insert_new_standards_table tbl df :
  (insert_new_standards no_fault tbl df).1
  = tbl ++ rows (prepare (check_duplicates no_fault tbl df)).
Proof.
  unfold insert_new_standards.
  destruct (df_empty (check_duplicates no_fault tbl df)) eqn:He;
    [|reflexivity].
  apply check_duplicates_empty in He.
  pose proof (prepare_length (check_duplicates no_fault tbl df)) as Hl.
  rewrite He in Hl. apply nil_length_inv in Hl. rewrite Hl.
  by rewrite app_nil_r.
Qed.

Lemma table_ids_after_insert tbl df :
  table_ids (insert_new_standards no_fault tbl df).1 =
  table_ids tbl ++
  (if accepted df then row_unique_id <$> new_rows tbl df else []).
Proof.
  rewrite insert_new_standards_table, table_ids_app, prepare_table_ids.
  rewrite check_duplicates_rows.
  rewrite (bool_decide_eq_true_2 (select_error no_fault = None)) by done.
  rewrite andb_true_r. destruct (accepted df); [|done].
  by rewrite table_ids_add_id.
Qed.

(** After a run on a working store every input identity is in the
    table. *)
Lemma ids_present_after_insert tbl df r :
  accepted df = true → r ∈ rows df →
  row_unique_id r ∈ existing_ids (insert_new_standards no_fault tbl df).1.
Proof.
  intros Ha Hr.
  rewrite existing_ids_table_ids, table_ids_after_insert, Ha.
  rewrite elem_of_list_to_set, elem_of_app.
  destruct (decide (row_unique_id r ∈ existing_ids tbl)) as [Hin|Hout].
  - left. by apply elem_of_list_to_set in Hin.
  - right. apply list_elem_of_fmap_2. by apply list_elem_of_filter.
Qed.

Lemma filter_none {A} (P : A → Prop) `{!∀ x, Decision (P x)} (l : list A) :
  (∀ x, x ∈ l → ¬ P x) → filter P l = [].
Proof.
  induction l as [|x l IH]; intros Hl; [done|].
  rewrite filter_cons, decide_False by (apply Hl; left).
  apply IH. intros y Hy. apply Hl. by right.
Qed.

Lemma df_empty_no_rows d : rows d = [] → df_empty d = true.
Proof.
  intros Hr. unfold df_empty. rewrite Hr.
  rewrite (bool_decide_eq_true_2 (@nil row = [])) by done. apply orb_true_r.
Qed.

Lemma accepted_columns df : accepted df = true → columns df ≠ [].
Proof.
  intros [He _]%andb_true_iff. apply negb_true_iff in He.
  apply orb_false_iff in He as [He _]. by apply bool_decide_eq_false in He.
Qed.

Lemma df_empty_checked tbl df :
  accepted df = true → new_rows tbl df ≠ [] →
  df_empty (check_duplicates no_fault tbl df) = false.
Proof.
  intros Ha Hn. pose proof (check_duplicates_rows no_fault tbl df) as Hr.
  rewrite Ha in Hr.
  rewrite (bool_decide_eq_true_2 (select_error no_fault = None)) in Hr by done.
  destruct (df_empty (check_duplicates no_fault tbl df)) eqn:He; [|done].
  apply check_duplicates_empty in He. rewrite Hr in He.
  cbn [andb] in He. by apply fmap_nil_inv in He.
Qed.

Lemma occurrences_app x a b :
  occurrences x (a ++ b) = occurrences x a + occurrences x b.
Proof. unfold occurrences. by rewrite filter_app, length_app. Qed.

Lemma occurrences_absent x (l : list string) : x ∉ l → occurrences x l = 0.
Proof.
  intros Hx. unfold occurrences. rewrite filter_none; [done|].
  by intros y Hy <-.
Qed.

Lemma occurrences_new_rows tbl df x :
  x ∉ existing_ids tbl →
  occurrences x (row_unique_id <$> new_rows tbl df)
  = occurrences x (row_unique_id <$> rows df).
Proof.
  intros Hx. unfold new_rows, occurrences.
  induction (rows df) as [|r l IH]; [done|].
  rewrite filter_cons, fmap_cons, (filter_cons (x =.)).
  destruct (decide (row_unique_id r ∉ existing_ids tbl)) as [Hn|Hn].
  - rewrite fmap_cons, filter_cons.
    destruct (decide (x = row_unique_id r)); cbn [length]; by rewrite IH.
  - rewrite decide_False; [done|]. intros ->. done.
Qed.

End CatalogFacts.

(** ** Claims on the synchroniser *)

Section CatalogClaims.

Context `{!Externals}.

(** C1. After a run of the synchroniser on a working store the table
    holds, behind what it held, one row for each input record whose
    identity it did not have; the identity of every input record is
    then in the table, so a second run on the same input finds no new
    record and leaves the table as it is, whatever the store does. *)
Theorem sync_twice_inserts_once tbl df f2 :
  let t1 := (insert_new_standards no_fault tbl df).1 in
  table_ids t1 =
    table_ids tbl ++
    (if accepted df then row_unique_id <$> new_rows tbl df else []) ∧
  length t1 =
    length tbl + (if accepted df then length (new_rows tbl df) else 0) ∧
  (accepted df = true →
   ∀ r, r ∈ rows df → row_unique_id r ∈ existing_ids t1) ∧
  rows (check_duplicates f2 t1 df) = [] ∧
  insert_new_standards f2 t1 df = (t1, (true, "No new records to insert")).
Proof.
  intros t1.
  assert (rows (check_duplicates f2 t1 df) = []) as Hnone.
  { rewrite check_duplicates_rows.
    destruct (accepted df) eqn:Ha; [|done].
    destruct (bool_decide (select_error f2 = None)); [|done].
    cbn [andb]. unfold new_rows. rewrite filter_none; [done|].
    intros r Hr Hnew. apply Hnew. by apply ids_present_after_insert. }
  split; [apply table_ids_after_insert|]. split; [|split; [|split]].
  - unfold t1. rewrite insert_new_standards_table, length_app, prepare_length.
    rewrite check_duplicates_rows.
    rewrite (bool_decide_eq_true_2 (select_error no_fault = None)) by done.
    rewrite andb_true_r. destruct (accepted df); [|done].
    by rewrite length_fmap.
  - intros Ha r Hr. by apply ids_present_after_insert.
  - done.
  - unfold insert_new_standards at 1.
    by rewrite (df_empty_no_rows _ Hnone).
Qed.

(** C5 (as the code has it). Two records of one input with the same natural key,
    whose identity the table does not have, are both classified as new
    and both handed to the one insert: when it succeeds the table gets
    a row for every occurrence of the identity in the input. *)
Theorem batch_duplicates_all_inserted tbl df l1 l2 l3 (r1 r2 : row) :
  accepted df = true →
  rows df = l1 ++ r1 :: l2 ++ r2 :: l3 →
  (∀ c, c ∈ required_cols → cell r1 c = cell r2 c) →
  row_unique_id r1 ∉ existing_ids tbl →
  row_unique_id r2 = row_unique_id r1 ∧
  (∃ k1 k2 k3,
     rows (check_duplicates no_fault tbl df)
     = k1 ++ add_id r1 :: k2 ++ add_id r2 :: k3) ∧
  occurrences (row_unique_id r1)
    (table_ids (insert_new_standards no_fault tbl df).1)
  = occurrences (row_unique_id r1) (row_unique_id <$> rows df) ∧
  (2 ≤ occurrences (row_unique_id r1) (row_unique_id <$> rows df))%nat.
Proof.
  intros Ha Hrows Hkey Hnew.
  assert (row_unique_id r2 = row_unique_id r1) as Hid.
  { unfold row_unique_id.
    by rewrite !Hkey by (unfold required_cols; set_solver). }
  assert (new_rows tbl df
          = filter (λ r, row_unique_id r ∉ existing_ids tbl) l1 ++
            r1 :: filter (λ r, row_unique_id r ∉ existing_ids tbl) l2 ++
            r2 :: filter (λ r, row_unique_id r ∉ existing_ids tbl) l3)
    as Hsplit.
  { unfold new_rows. rewrite Hrows.
    rewrite filter_app, filter_cons, decide_True by done.
    rewrite filter_app, filter_cons, decide_True by (by rewrite Hid).
    done. }
  split; [done|]. split; [|split].
  - rewrite check_duplicates_rows, Ha.
    rewrite (bool_decide_eq_true_2 (select_error no_fault = None)) by done.
    cbn [andb]. rewrite Hsplit, fmap_app, fmap_cons, fmap_app, fmap_cons.
    eauto.
  - rewrite table_ids_after_insert, Ha, occurrences_app.
    rewrite occurrences_absent, occurrences_new_rows; [done..|].
    by rewrite existing_ids_table_ids, elem_of_list_to_set in Hnew.
  - rewrite Hrows, fmap_app, fmap_cons, fmap_app, fmap_cons.
    unfold occurrences.
    rewrite filter_app, filter_cons, decide_True by done.
    rewrite filter_app, filter_cons, decide_True by done.
    rewrite !length_app. cbn [length]. rewrite length_app. cbn [length].
    lia.
Qed.

(** C6. A frame that lacks one of the three key columns is turned away
    before the store is read: [check_duplicates] returns the empty
    frame and [insert_new_standards] leaves the table as it is. *)
Theorem missing_required_column_rejected f tbl df c :
  c ∈ required_cols →
  c ∉ columns df →
  check_duplicates f tbl df = empty_frame ∧
  insert_new_standards f tbl df
    = (tbl, (true, "No new records to insert")).
Proof.
  intros Hreq Hmiss.
  assert (check_duplicates f tbl df = empty_frame) as Hcd.
  { unfold check_duplicates. destruct (df_empty df); [done|].
    rewrite bool_decide_eq_true_2; [done|].
    intros Hnil.
    by apply (filter_nil_not_elem_of _ _ c Hnil Hmiss). }
  split; [done|]. unfold insert_new_standards. by rewrite Hcd.
Qed.

(** C9 (the code at the failing input). When reading the identities
    raises, [insert_new_standards] returns the success it returns when
    every record is a duplicate. *)
Theorem read_failure_reported_as_success tbl df e ie :
  insert_new_standards {| select_error := Some e; insert_error := ie |} tbl df
  = (tbl, (true, "No new records to insert")).
Proof.
  unfold insert_new_standards.
  rewrite df_empty_no_rows; [done|].
  rewrite check_duplicates_rows.
  rewrite (bool_decide_eq_false_2 (_ = None)) by done.
  by rewrite andb_false_r.
Qed.

End CatalogClaims.

Lemma sync_twice_inserts_once_witness :
  (∀ r, r ∈ rows ex_batch →
     @row_unique_id demo r
       ∈ existing_ids (@insert_new_standards demo no_fault [] ex_batch).1) ∧
  @insert_new_standards demo no_fault
    (@insert_new_standards demo no_fault [] ex_batch).1 ex_batch
  = ((@insert_new_standards demo no_fault [] ex_batch).1,
     (true, "No new records to insert")).
Proof.
  destruct (@sync_twice_inserts_once demo [] ex_batch no_fault)
    as (_ & _ & Hids & _ & Hsecond).
  split; [|exact Hsecond].
  apply Hids. vm_compute. reflexivity.
Defined.

Lemma batch_duplicates_all_inserted_witness :
  occurrences (@row_unique_id demo ex_record)
    (table_ids (@insert_new_standards demo no_fault [] ex_batch).1)
  = occurrences (@row_unique_id demo ex_record)
      (@row_unique_id demo <$> rows ex_batch) ∧
  (2 ≤ occurrences (@row_unique_id demo ex_record)
         (@row_unique_id demo <$> rows ex_batch))%nat.
Proof.
  destruct (@batch_duplicates_all_inserted demo [] ex_batch [] [] []
              ex_record ex_record) as (_ & _ & Hocc & Htwo).
  - vm_compute. reflexivity.
  - reflexivity.
  - reflexivity.
  - apply not_elem_of_empty.
  - by split.
Defined.

(** C5 as stated fails on a frame that holds one record twice, against an
    empty table: the table ends with two rows of the one identity. *)
Lemma second_occurrence_is_inserted :
  table_ids (@insert_new_standards demo no_fault [] ex_batch).1
  = [ "3-101|AAMI|EC12:2000"; "3-101|AAMI|EC12:2000" ].
Proof. vm_compute. reflexivity. Qed.

Lemma missing_required_column_rejected_witness :
  @check_duplicates demo no_fault [] ex_frame_no_designation = empty_frame ∧
  @insert_new_standards demo no_fault [] ex_frame_no_designation
    = ([], (true, "No new records to insert")).
Proof.
  apply (@missing_required_column_rejected demo no_fault []
           ex_frame_no_designation "standard_designation_number_and_date").
  - unfold required_cols. set_solver.
  - unfold ex_frame_no_designation. cbn [columns].
    rewrite !not_elem_of_cons. repeat split; try done. apply not_elem_of_nil.
Defined.

(** C9 at a failing input: a frame of two new records against an empty
    table. With the read raising, the call answers as if nothing were
    new; with the store working it inserts two records. *)
Lemma read_failure_hides_new_records :
  @insert_new_standards demo
    {| select_error := Some "OperationalError"; insert_error := None |}
    [] ex_batch
  = ([], (true, "No new records to insert")) ∧
  (@insert_new_standards demo no_fault [] ex_batch).2
  = (true, "Inserted 2 records").
Proof. split; vm_compute; reflexivity. Qed.

(** ** Recording the artifact locations *)

Section ProcessorFacts.

Context `{!Externals}.

Lemma cell_set_s3_paths_pdf pdf html r :
  cell (set_s3_paths pdf html r) "aws_key"
  = VStr (s3_prefix +:+ "PDF/" +:+ pdf).
Proof.
  unfold set_s3_paths. rewrite cell_insert_ne by done.
  apply cell_insert_eq.
Qed.

Lemma cell_set_s3_paths_html pdf html r :
  cell (set_s3_paths pdf html r) "aws_html_key"
  = VStr (s3_prefix +:+ "HTML/" +:+ html).
Proof. unfold set_s3_paths. apply cell_insert_eq. Qed.

Lemma processed_set_s3_paths pdf html r :
  processed (set_s3_paths pdf html r) = true.
Proof.
  unfold processed.
  rewrite cell_set_s3_paths_pdf, cell_set_s3_paths_html.
  apply andb_true_iff. split; by apply bool_decide_eq_true.
Qed.

(** The table after the statement, row by row. *)
Lemma update_s3_paths_lookup tbl url pdf html i :
  (update_s3_paths false tbl url pdf html).1 !! i
  = (λ r, if sql_eq (cell r "title_link") url
          then set_s3_paths pdf html r else r) <$> tbl !! i.
Proof. unfold update_s3_paths. cbn [fst]. apply list_lookup_fmap. Qed.

Lemma update_s3_paths_result tbl url pdf html :
  (update_s3_paths false tbl url pdf html).2 = false
  ↔ ∀ r, r ∈ tbl → sql_eq (cell r "title_link") url = false.
Proof.
  unfold update_s3_paths. cbn [snd].
  rewrite bool_decide_eq_false. split.
  - intros Hz r Hr. destruct (sql_eq _ url) eqn:Hs; [|done].
    exfalso. apply Hz. apply Nat.neq_0_lt_0. intros Hl.
    apply nil_length_inv in Hl.
    by apply (filter_nil_not_elem_of _ _ r Hl).
  - intros Hall. rewrite filter_none; [cbn [length]; lia|].
    intros r Hr. rewrite (Hall r Hr). done.
Qed.

Lemma update_s3_paths_no_match tbl url pdf html :
  (∀ r, r ∈ tbl → sql_eq (cell r "title_link") url = false) →
  (update_s3_paths false tbl url pdf html).1 = tbl.
Proof.
  intros Hall. unfold update_s3_paths. cbn [fst].
  induction tbl as [|r tbl IH]; [done|].
  rewrite fmap_cons, (Hall r) by left.
  f_equal. apply IH. intros r' Hr'. apply Hall. by right.
Qed.

Lemma update_s3_paths_error tbl url pdf html :
  update_s3_paths true tbl url pdf html = (tbl, false).
Proof. reflexivity. Qed.

End ProcessorFacts.

(** ** Claims on the artifact pipeline *)

Section ProcessorClaims.

Context `{!Externals}.

#[local] Opaque update_s3_paths.

Lemma db_changes_only_when_recorded p env w e :
  db (process_standard p env w e).1 ≠ db w →
  use_s3 p = true ∧
  (both_exist env w e = Some true ∨
   (both_exist env w e = Some false ∧ both_uploaded env e)).
Proof.
  process_names p env w e. intros Hdb.
  process_runs p env w e k1 k2 b1 b2; try done; auto.
Qed.

Lemma db_unchanged_unless_update_runs p env w e :
  database env ≠ Runs → db (process_standard p env w e).1 = db w.
Proof.
  process_names p env w e. intros Hdb.
  process_runs p env w e k1 k2 b1 b2;
    rewrite ?update_s3_paths_error; done.
Qed.

Lemma recording_reached p env w e :
  use_s3 p = true →
  both_exist env w e = Some true ∨
  (both_exist env w e = Some false ∧ renders_both env e ∧ both_uploaded env e) →
  database env = Runs →
  db (process_standard p env w e).1
  = (update_s3_paths false (db w) (title_link e)
       (sanitize_filename (pdf_filename e))
       (sanitize_filename (html_filename e))).1.
Proof.
  process_names p env w e.
  intros Hs [Hex|(Hex & (Hd & Hr1 & Hr2) & [Hu1 Hu2])] Hdb;
    process_runs p env w e k1 k2 b1 b2; try done;
    set_unfold; tauto.
Qed.

Lemma partial_upload p env w e :
  use_s3 p = true →
  both_exist env w e = Some false →
  detail_found env (title_link e) = true →
  pdf_renders env (sanitize_filename (sanitize_filename (pdf_filename e))) = true →
  upload env (pdf_key e) = Uploaded →
  html_renders env (sanitize_filename (sanitize_filename (html_filename e))) = false
    ∨ upload env (html_key e) ≠ Uploaded →
  (process_standard p env w e).2 = false ∧
  db (process_standard p env w e).1 = db w ∧
  pdf_key e ∈ bucket (process_standard p env w e).1 ∧
  disk w ⊆ disk (process_standard p env w e).1 ∧
  pdf_local p e ∈ disk (process_standard p env w e).1.
Proof.
  process_names p env w e.
  intros Hs Hex Hd Hr Hup [Hhtml|Hhtml];
    process_runs p env w e k1 k2 b1 b2; try done;
    set_unfold; tauto.
Qed.

Lemma files_removed_only_after_both_uploads p env w e x :
  x ∈ disk w ∨
  ((use_s3 p = false ∨ both_exist env w e = Some false) ∧
   detail_found env (title_link e) = true ∧
   ((pdf_renders env (sanitize_filename (sanitize_filename (pdf_filename e))) = true
     ∧ x = pdf_local p e) ∨
    (html_renders env (sanitize_filename (sanitize_filename (html_filename e))) = true
     ∧ x = html_local p e))) →
  x ∉ disk (process_standard p env w e).1 →
  use_s3 p = true ∧ both_uploaded env e.
Proof.
  process_names p env w e.
  intros [Hx|([Hs|Hs] & Hd & [[Hr ->]|[Hr ->]])] Hgone;
    process_runs p env w e k1 k2 b1 b2; try done; auto;
    exfalso; set_unfold; tauto.
Qed.

(** C3 (as the code has it). A run of [process_standard] changes the table only
    when both objects were found in the bucket or both uploads ended
    normally. When the probes answer that the two files are not both in
    the bucket and the PDF is uploaded but the HTML is not (it was not
    rendered, or its upload failed), the run returns [False], the table
    is as before, the uploaded PDF is in the bucket, and no file is
    removed from the disk. A file that was on the disk, or that the run
    rendered, is gone afterwards only when both uploads ended
    normally. *)
Theorem store_untouched_on_partial_upload p env w e :
  (db (process_standard p env w e).1 ≠ db w →
   use_s3 p = true ∧
   (both_exist env w e = Some true ∨
    (both_exist env w e = Some false ∧ both_uploaded env e))) ∧
  (use_s3 p = true →
   both_exist env w e = Some false →
   detail_found env (title_link e) = true →
   pdf_renders env (sanitize_filename (sanitize_filename (pdf_filename e))) = true →
   upload env (pdf_key e) = Uploaded →
   html_renders env (sanitize_filename (sanitize_filename (html_filename e))) = false
     ∨ upload env (html_key e) ≠ Uploaded →
   (process_standard p env w e).2 = false ∧
   db (process_standard p env w e).1 = db w ∧
   pdf_key e ∈ bucket (process_standard p env w e).1 ∧
   disk w ⊆ disk (process_standard p env w e).1 ∧
   pdf_local p e ∈ disk (process_standard p env w e).1) ∧
  (∀ x,
     x ∈ disk w ∨
     ((use_s3 p = false ∨ both_exist env w e = Some false) ∧
      detail_found env (title_link e) = true ∧
      ((pdf_renders env (sanitize_filename (sanitize_filename (pdf_filename e))) = true
        ∧ x = pdf_local p e) ∨
       (html_renders env (sanitize_filename (sanitize_filename (html_filename e))) = true
        ∧ x = html_local p e))) →
     x ∉ disk (process_standard p env w e).1 →
     use_s3 p = true ∧ both_uploaded env e).
Proof.
  split; [apply db_changes_only_when_recorded|].
  split; [apply partial_upload|].
  intros x. apply files_removed_only_after_both_uploads.
Qed.

(** C10 (as the code has it). When a run of [process_standard] reaches
    the recording step (both objects found in the bucket, or the probes
    answered otherwise and both files were rendered and uploaded), what
    the table becomes depends on the update. When the statement runs,
    every row whose [title_link] equals the entry's has both location
    fields set to the entry's keys and counts as processed, and every
    other row is as before: two rows sharing the entry's link are both
    processed afterwards, and when no row has the link the table does
    not change. When the statement or the connection raises, the table
    is as before. [update_s3_paths] returns [False] when no row has
    that [title_link], and also whenever it raises. *)
Theorem completion_recorded_by_title_link p env w e :
  use_s3 p = true →
  both_exist env w e = Some true ∨
  (both_exist env w e = Some false ∧ renders_both env e ∧ both_uploaded env e) →
  let pdf := sanitize_filename (pdf_filename e) in
  let html := sanitize_filename (html_filename e) in
  let w' := (process_standard p env w e).1 in
  (database env = Runs →
   (∀ i r, db w !! i = Some r →
      db w' !! i
      = Some (if sql_eq (cell r "title_link") (title_link e)
              then set_s3_paths pdf html r else r)) ∧
   (∀ i j r1 r2 u,
      db w !! i = Some r1 → db w !! j = Some r2 →
      cell r1 "title_link" = VStr u → cell r2 "title_link" = VStr u →
      title_link e = VStr u →
      ∃ r1' r2', db w' !! i = Some r1' ∧ db w' !! j = Some r2' ∧
                 processed r1' = true ∧ processed r2' = true) ∧
   ((∀ r, r ∈ db w → sql_eq (cell r "title_link") (title_link e) = false) →
    db w' = db w)) ∧
  (database env ≠ Runs → db w' = db w) ∧
  (∀ r, cell (set_s3_paths pdf html r) "aws_key" = VStr (pdf_key e) ∧
        cell (set_s3_paths pdf html r) "aws_html_key" = VStr (html_key e) ∧
        processed (set_s3_paths pdf html r) = true) ∧
  (∀ update_error,
     (update_s3_paths update_error (db w) (title_link e) pdf html).2 = false
     ↔ update_error = true ∨
       ∀ r, r ∈ db w → sql_eq (cell r "title_link") (title_link e) = false).
Proof.
  intros Hs Hpath pdf html w'.
  split; [|split; [|split]].
  - intros Hdb.
    pose proof (recording_reached p env w e Hs Hpath Hdb) as Hrec.
    fold pdf html w' in Hrec.
    assert (∀ i r, db w !! i = Some r →
              db w' !! i
              = Some (if sql_eq (cell r "title_link") (title_link e)
                      then set_s3_paths pdf html r else r)) as Hrow.
    { intros i r Hi. by rewrite Hrec, update_s3_paths_lookup, Hi. }
    split; [done|]. split.
    + intros i j r1 r2 u Hi Hj H1 H2 Hu.
      eexists _, _. split; [by apply Hrow|]. split; [by apply Hrow|].
      rewrite H1, H2, Hu. unfold sql_eq.
      rewrite bool_decide_eq_true_2 by done.
      split; apply processed_set_s3_paths.
    + intros Hnone. rewrite Hrec. by apply update_s3_paths_no_match.
  - apply db_unchanged_unless_update_runs.
  - intros r. split; [apply cell_set_s3_paths_pdf|].
    split; [apply cell_set_s3_paths_html|apply processed_set_s3_paths].
  - intros [|].
    + rewrite update_s3_paths_error. cbn [snd]. split; [by left|done].
    + rewrite update_s3_paths_result. split; [by right|].
      by intros [?|?].
Qed.

End ProcessorClaims.

Lemma store_untouched_on_partial_upload_witness :
  (@process_standard demo ex_processor ex_env_pdf_only ex_world_fresh ex_entry).2
    = false ∧
  db (@process_standard demo ex_processor ex_env_pdf_only ex_world_fresh ex_entry).1
    = db ex_world_fresh ∧
  @pdf_key demo ex_entry
    ∈ bucket (@process_standard demo ex_processor ex_env_pdf_only ex_world_fresh ex_entry).1 ∧
  disk ex_world_fresh
    ⊆ disk (@process_standard demo ex_processor ex_env_pdf_only ex_world_fresh ex_entry).1 ∧
  @pdf_local demo ex_processor ex_entry
    ∈ disk (@process_standard demo ex_processor ex_env_pdf_only ex_world_fresh ex_entry).1.
Proof.
  destruct (@store_untouched_on_partial_upload demo ex_processor
              ex_env_pdf_only ex_world_fresh ex_entry) as (_ & Hpartial & _).
  apply Hpartial.
  - reflexivity.
  - vm_compute. reflexivity.
  - reflexivity.
  - reflexivity.
  - vm_compute. reflexivity.
  - right. vm_compute. discriminate.
Defined.

(** C3 as stated fails when both objects are in the bucket already: no
    upload ends normally (here none can), and the rows of the table that
    have the entry's link go from unprocessed to processed. *)
Lemma existing_artifacts_recorded_without_upload :
  processed <$> db ex_world = [false; false] ∧
  processed
    <$> db (@process_standard demo ex_processor ex_env_no_upload ex_world ex_entry).1
  = [true; true].
Proof. split; vm_compute; reflexivity. Qed.

Lemma completion_recorded_by_title_link_witness :
  ∃ r1' r2',
    db (@process_standard demo ex_processor ex_env_no_upload ex_world ex_entry).1 !! 0
      = Some r1' ∧
    db (@process_standard demo ex_processor ex_env_no_upload ex_world ex_entry).1 !! 1
      = Some r2' ∧
    processed r1' = true ∧ processed r2' = true.
Proof.
  destruct (@completion_recorded_by_title_link demo ex_processor
              ex_env_no_upload ex_world ex_entry) as (Hruns & _).
  - reflexivity.
  - left. vm_compute. reflexivity.
  - destruct Hruns as (_ & Hshared & _); [reflexivity|].
    apply (Hshared 0 1 (ex_catalog_row "3-101") (ex_catalog_row "3-102") "").
    + reflexivity.
    + reflexivity.
    + vm_compute. reflexivity.
    + vm_compute. reflexivity.
    + reflexivity.
Defined.

(** C10 as stated fails when the update raises: both rows of the table
    have the entry's link, yet [update_s3_paths] reports failure; the
    run of [process_standard] that found both objects returns [True]
    and no row is marked. *)
Lemma update_failure_reported_with_matching_rows :
  (λ r : row, sql_eq (cell r "title_link") (title_link ex_entry)) <$> db ex_world
    = [true; true] ∧
  (update_s3_paths true (db ex_world) (title_link ex_entry)
     (@sanitize_filename demo (pdf_filename ex_entry))
     (@sanitize_filename demo (html_filename ex_entry))).2 = false ∧
  (@process_standard demo ex_processor ex_env_update_raises ex_world ex_entry).2
    = true ∧
  processed
    <$> db (@process_standard demo ex_processor ex_env_update_raises ex_world
              ex_entry).1
  = [false; false].
Proof. repeat split; vm_compute; reflexivity. Qed.

(** ** Further properties of the reconstructor and the crawl *)

Section ScraperMore.

Context `{!Externals}.

Lemma make_row_designation c0 c1 c2 c3 s d t l :
  make_row c0 c1 c2 c3 s d t l !! "standard_designation_number_and_date"
  = Some d.
Proof. vm_compute. reflexivity. Qed.

Lemma make_row_title c0 c1 c2 c3 s d t l :
  make_row c0 c1 c2 c3 s d t l !! "standard_title" = Some t.
Proof. vm_compute. reflexivity. Qed.

Lemma header_skip_nil ht : header_skip ht [] = None.
Proof.
  destruct ht as [h|]; [|done]. unfold header_skip.
  destruct h; [done|]. by rewrite andb_false_r.
Qed.

Lemma header_skip_inv ht texts ht' :
  header_skip ht texts = Some ht' →
  match ht with
  | Some h => ht' = Some h
  | None => ht' = Some texts ∧ existsb (contains "Date") texts = true
  end.
Proof.
  unfold header_skip. destruct ht as [h|].
  - destruct (_ && _); by intros [= <-].
  - destruct (existsb _ texts); [|done]. by intros [= <-].
Qed.

Lemma classify_skip tds c ht ht' :
  classify tds c ht = Skip ht' →
  header_skip ht (td_text <$> tds) = Some ht'.
Proof.
  unfold classify. destruct tds as [|t0 tds]; [done|].
  destruct (header_skip ht (td_text <$> t0 :: tds)) as [h|];
    [by intros [= <-]|].
  destruct tds as [|t1 [|t2 [|t3 [|t4 [|t5 [|t6 rest]]]]]]; try done.
  - destruct (link_of t2); [by destruct c as [[[??]?]?]|done].
  - by destruct (link_of t6).
Qed.

(** A row of fewer than seven cells that the header test lets through
    yields a record exactly when it has three cells, and never touches
    the carry. *)
Lemma classify_short tds c ht :
  length tds < 7 →
  header_skip ht (td_text <$> tds) = None →
  Forall (λ t, has_href t = true) tds →
  (length tds ≠ 3 ∧ classify tds c ht = Discard) ∨
  (length tds = 3 ∧ ∃ r : row, classify tds c ht = Emit r c ∧
     ∀ i f, carried_fields !! i = Some f →
       r !! f = [c.1.1.1; c.1.1.2; c.1.2; c.2] !! i).
Proof.
  intros Hlen Hh Hok. destruct c as [[[c0 c1] c2] c3].
  destruct tds as [|t0 [|t1 [|t2 [|t3 [|t4 [|t5 [|t6 rest]]]]]]];
    try (cbn [length] in Hlen; lia);
    try (left; split; [cbn [length]; lia|]; unfold classify;
         try rewrite Hh; reflexivity).
  right. split; [done|].
  assert (is_Some (link_of t2)) as [l Hl].
  { apply link_of_has_href. by repeat (apply Forall_cons in Hok as [? Hok]). }
  eexists. split; [by apply (classify_continuation _ _ _ _ ht t0 t1 t2 l)|].
  intros i f Hf. by rewrite (make_row_carried _ _ _ _ _ _ _ _ i f Hf).
Qed.

Lemma rows_loop_short trs acc c ht :
  Forall (λ tds, length tds < 7 ∧ header_skip ht (td_text <$> tds) = None) trs →
  anchors_ok trs →
  ∃ rs : list row,
    rows_loop trs acc c ht = Some (acc ++ rs, ht) ∧
    length rs = length (filter (λ tds, length tds = 3) trs) ∧
    ∀ r, r ∈ rs → ∀ i f, carried_fields !! i = Some f →
      r !! f = [c.1.1.1; c.1.1.2; c.1.2; c.2] !! i.
Proof.
  revert acc. induction trs as [|tds trs IH]; intros acc Hshort Hok.
  - exists []. rewrite app_nil_r. split; [done|]. split; [done|].
    by intros r ?%elem_of_nil.
  - apply Forall_cons in Hshort as [[Hlen Hh] Hshort].
    apply Forall_cons in Hok as [Hok1 Hok].
    cbn [rows_loop]. rewrite filter_cons.
    destruct (classify_short tds c ht Hlen Hh Hok1)
      as [[Hn ->]|[H3 (r & -> & Hr)]].
    + rewrite decide_False by done. by apply IH.
    + rewrite decide_True by done.
      destruct (IH (acc ++ [r]) Hshort Hok) as (rs & -> & Hcount & Hrs).
      exists (r :: rs). rewrite <- app_assoc. split; [done|].
      split; [cbn [length]; by rewrite Hcount|].
      intros r' [->|Hin]%elem_of_cons; [done|by apply Hrs].
Qed.

(** X1. One full row followed by any number of narrower rows: every row
    of three cells yields a record that carries the first four texts of
    the full row, the rows of other widths yield nothing and do not
    disturb the carry, and the header template is as before. *)
Theorem continuation_rows_share_carry ht (full : list td) trs :
  (7 ≤ length full)%nat →
  header_skip ht (td_text <$> full) = None →
  Forall (λ tds, length tds < 7 ∧ header_skip ht (td_text <$> tds) = None) trs →
  anchors_ok (full :: trs) →
  ∃ (r0 : row) (rs : list row),
    extract_table_rows (Some (full :: trs)) ht = Some (r0 :: rs, ht) ∧
    length rs = length (filter (λ tds, length tds = 3) trs) ∧
    ∀ r, r ∈ rs → ∀ i f, carried_fields !! i = Some f →
      r !! f = (VStr ∘ td_text) <$> full !! i.
Proof.
  intros Hfull Hh Hshort Hok.
  apply Forall_cons in Hok as [Hok1 Hok].
  destruct full as [|t0 [|t1 [|t2 [|t3 [|t4 [|t5 [|t6 rest]]]]]]];
    cbn [length] in Hfull; try lia.
  assert (is_Some (link_of t6)) as [l Hl].
  { apply link_of_has_href. by repeat (apply Forall_cons in Hok1 as [? Hok1]). }
  unfold extract_table_rows. cbn [rows_loop].
  rewrite (classify_full carry0 ht t0 t1 t2 t3 t4 t5 t6 rest l Hh Hl).
  destruct (rows_loop_short trs ([] ++ [make_row (VStr (td_text t0))
              (VStr (td_text t1)) (VStr (td_text t2)) (VStr (td_text t3))
              (VStr (td_text t4)) (VStr (td_text t5)) (title_of t6) l])
              (VStr (td_text t0), VStr (td_text t1), VStr (td_text t2),
               VStr (td_text t3)) ht Hshort Hok) as (rs & -> & Hcount & Hrs).
  eexists _, rs. split; [done|]. split; [done|].
  intros r Hr i f Hf. rewrite (Hrs r Hr i f Hf).
  by destruct i as [|[|[|[|i]]]].
Qed.

Lemma rows_loop_template trs acc c ht rs ht' :
  rows_loop trs acc c ht = Some (rs, ht') →
  match ht with
  | Some h => ht' = Some h
  | None =>
      ht' = None ∨
      ∃ tds, tds ∈ trs ∧ ht' = Some (td_text <$> tds) ∧
             existsb (contains "Date") (td_text <$> tds) = true
  end.
Proof.
  revert acc c ht. induction trs as [|tds trs IH]; intros acc c ht.
  - intros [= <- <-]. destruct ht; [done|by left].
  - cbn [rows_loop].
    destruct (classify tds c ht) as [h|r c'| |] eqn:Hc; try done; intros Hl.
    + apply classify_skip, header_skip_inv in Hc.
      specialize (IH _ _ _ Hl). destruct ht as [h0|].
      * by subst.
      * destruct Hc as [-> Hd]. right. exists tds. split; [by left|].
        by rewrite IH.
    + specialize (IH _ _ _ Hl). destruct ht as [h0|]; [done|].
      destruct IH as [?|(t & ? & ?)]; [by left|].
      right. exists t. split; [by right|done].
    + specialize (IH _ _ _ Hl). destruct ht as [h0|]; [done|].
      destruct IH as [?|(t & ? & ?)]; [by left|].
      right. exists t. split; [by right|done].
Qed.

(** X2. A call of [extract_table_rows] that is given a header template
    returns that template; given none, it returns none or the texts of a
    row of the table that has the word [Date] in a cell. *)
Theorem header_template_set_once s ht rs ht' :
  extract_table_rows s ht = Some (rs, ht') →
  match ht with
  | Some h => ht' = Some h
  | None =>
      ht' = None ∨
      ∃ trs tds, s = Some trs ∧ tds ∈ trs ∧ ht' = Some (td_text <$> tds) ∧
                 existsb (contains "Date") (td_text <$> tds) = true
  end.
Proof.
  destruct s as [trs|]; cbn [extract_table_rows].
  - intros Hl%rows_loop_template. destruct ht; [done|].
    destruct Hl as [?|(tds & ? & ?)]; [by left|]. right. by exists trs, tds.
  - intros [= <- <-]. destruct ht; [done|by left].
Qed.

(** X3. A page that starts with a header row in [td] cells parses the
    same as the first page of a crawl, where the row sets the template,
    and as a later page, where the row equals the template: in both
    cases as its remaining rows do under that template. *)
Theorem header_row_skipped_on_every_page (hdr : list td) trs :
  hdr ≠ [] →
  existsb (contains "Date") (td_text <$> hdr) = true →
  extract_table_rows (Some (hdr :: trs)) None
    = extract_table_rows (Some trs) (Some (td_text <$> hdr)) ∧
  extract_table_rows (Some (hdr :: trs)) (Some (td_text <$> hdr))
    = extract_table_rows (Some trs) (Some (td_text <$> hdr)).
Proof.
  intros Hne Hdate.
  assert (∀ ht, header_skip ht (td_text <$> hdr) = Some (Some (td_text <$> hdr)) →
            classify hdr carry0 ht = Skip (Some (td_text <$> hdr))) as Hskip.
  { intros ht Hh. unfold classify. destruct hdr; [done|]. by rewrite Hh. }
  unfold extract_table_rows. cbn [rows_loop]. split.
  - rewrite Hskip; [done|]. unfold header_skip. by rewrite Hdate.
  - rewrite Hskip; [done|]. unfold header_skip.
    rewrite !bool_decide_eq_true_2; [done..|].
    by destruct hdr.
Qed.

(** X4. The records of a page have strings in the four fields the row
    itself supplies; only carried fields can be [None]. *)
Theorem own_fields_are_strings s ht rs ht' (r : row) f :
  extract_table_rows s ht = Some (rs, ht') →
  r ∈ rs → f ∈ own_fields →
  ∃ text, r !! f = Some (VStr text).
Proof.
  intros Hx Hr Hf. destruct s as [trs|]; cbn [extract_table_rows] in Hx;
    [|injection Hx as <- <-; by apply elem_of_nil in Hr].
  destruct (rows_loop_origin _ _ _ _ _ _ _ Hx Hr)
    as [[]%elem_of_nil|(tds & c & h & c' & Hin & Hc)].
  apply classify_emit in Hc as [_ Hc].
  assert (∀ t l, link_of t = Some l → ∃ text, l = VStr text) as Hlink.
  { intros t l Hl. pose proof (link_of_cases t) as Hcases. rewrite Hl in Hcases.
    destruct Hcases as [[_ ->]|(a & h' & _ & _ & ->)]; eauto. }
  unfold own_fields in Hf.
  destruct Hc as [(t0&t1&t2&t3&t4&t5&t6&rest&link&->&Hl&->&_)
                 |(t0&t1&t2&link&->&Hl&->&_)];
    destruct (Hlink _ _ Hl) as [text ->];
    repeat (apply elem_of_cons in Hf as [->|Hf]);
    try (by apply elem_of_nil in Hf);
    rewrite ?make_row_sdo, ?make_row_designation, ?make_row_title,
      ?make_row_link; unfold title_of; eauto.
Qed.

Lemma lookup_list_to_map_fmap (g : string → value) (cs : list string) c :
  (list_to_map ((λ c, (c, g c)) <$> cs) : row) !! c
  = if bool_decide (c ∈ cs) then Some (g c) else None.
Proof.
  induction cs as [|c' cs IH]; [done|].
  rewrite fmap_cons. cbn [list_to_map foldr fst snd].
  destruct (decide (c' = c)) as [->|Hne].
  - rewrite lookup_insert_eq. by rewrite bool_decide_eq_true_2 by left.
  - rewrite lookup_insert_ne by done. rewrite IH.
    case_bool_decide as Hin.
    + by rewrite bool_decide_eq_true_2 by (by right).
    + rewrite bool_decide_eq_false_2; [done|].
      by intros [->|?]%elem_of_cons.
Qed.

(** X5. The frame the crawl returns has one row per record, with a cell
    for each configured column and for no other; the cell is the
    record's string where the record has one, and the empty string
    where the record has [None] or lacks the key. *)
Theorem frame_cells_are_strings (all_rows : list row) i (d : row) c :
  all_rows !! i = Some d →
  ∃ fr : row,
    rows (to_frame all_rows) !! i = Some fr ∧
    length (rows (to_frame all_rows)) = length all_rows ∧
    fr !! c = if bool_decide (c ∈ COLUMNS)
              then Some (VStr (match d !! c with
                               | Some (VStr text) => text
                               | _ => ""
                               end))
              else None.
Proof.
  intros Hd. exists (frame_row d). unfold to_frame. cbn [rows].
  rewrite list_lookup_fmap, Hd, length_fmap. split; [done|]. split; [done|].
  unfold frame_row. rewrite lookup_list_to_map_fmap.
  case_bool_decide; [|done]. do 2 f_equal.
  unfold cell. rewrite lookup_total_alt.
  by destruct (d !! c) as [[text| |]|].
Qed.

Lemma offsets_S start k :
  offsets start (S k) = start :: offsets (start + PAGE_SIZE) k.
Proof.
  unfold offsets. rewrite <- cons_seq, fmap_cons.
  rewrite Nat.mul_0_r, Nat.add_0_r. f_equal.
  rewrite <- (fmap_S_seq 0), <- list_fmap_compose.
  apply list_fmap_ext. intros _ j _. cbn [compose]. lia.
Qed.

(** X6. Whatever a crawl returns, it fetched the offsets [start],
    [start + 500], ... in this order, each once and none skipped, and
    every fetch but the last obtained at least 500 records. *)
Theorem crawl_fetches_in_steps fuel src start ht all_rows fetched rs fs :
  scrape_loop fuel src start ht all_rows fetched = Some (rs, fs) →
  ∃ k, fs = fetched ++ offsets start (S k) ∧
       (length all_rows + PAGE_SIZE * k ≤ length rs)%nat.
Proof.
  revert start ht all_rows fetched.
  induction fuel as [|fuel IH]; intros start ht all_rows fetched; [done|].
  rewrite scrape_loop_step. case_bool_decide as Hshort.
  - intros [= <- <-]. exists 0. rewrite offsets_S. split; [done|].
    rewrite length_app. lia.
  - intros (k & -> & Hlen)%IH. exists (S k).
    rewrite (offsets_S start (S k)), <- app_assoc. split; [done|].
    rewrite length_app in Hlen. lia.
Qed.

End ScraperMore.

(** ** Further properties of the synchroniser *)

Section CatalogMore.

Context `{!Externals}.

Lemma string_app_assoc (a b c : string) : (a +:+ b) +:+ c = a +:+ (b +:+ c).
Proof.
  induction a as [|x a IH]; [done|].
  change (String x ((a +:+ b) +:+ c) = String x (a +:+ (b +:+ c))).
  by f_equal.
Qed.

(** X7. The separator is not escaped: moving a bar between the
    recognition number and the organisation gives the same identity,
    whatever the digest. *)
Theorem identity_separator_collision a b c d :
  generate_unique_id (a +:+ "|" +:+ b) c d
  = generate_unique_id a (b +:+ "|" +:+ c) d.
Proof.
  unfold generate_unique_id. f_equal.
  by rewrite !string_app_assoc.
Qed.

Lemma cut_at_first (x : ascii) (a a' r r' : string) :
  free_of x a → free_of x a' →
  a +:+ String x r = a' +:+ String x r' → a = a' ∧ r = r'.
Proof.
  revert a'. induction a as [|y a IH]; intros [|y' a'] Ha Ha';
    cbn [String.append free_of] in *.
  - by intros [= ->].
  - intros [= -> _]. by destruct Ha' as [? _].
  - intros [= -> _]. by destruct Ha as [? _].
  - intros [= -> Heq]. destruct Ha as [_ Ha], Ha' as [_ Ha'].
    destruct (IH a' Ha Ha' Heq) as [-> ->]. done.
Qed.

(** X8. The identity is the digest of the three fields joined by bars,
    and as long as recognition number and organisation have no bar in
    them, the joined text determines the three fields. *)
Theorem key_string_determines_fields a b c a' b' c' :
  free_of "|" a → free_of "|" a' → free_of "|" b → free_of "|" b' →
  key_string a b c = key_string a' b' c' →
  generate_unique_id a b c = md5_hexdigest (key_string a b c) ∧
  a = a' ∧ b = b' ∧ c = c'.
Proof.
  intros Ha Ha' Hb Hb' Heq. split; [done|].
  unfold key_string in Heq.
  change ("|" +:+ ?s) with (String "|" s) in Heq.
  apply cut_at_first in Heq as [-> Heq]; [|done..].
  apply cut_at_first in Heq as [-> ->]; done.
Qed.

Lemma accepted_none_missing df :
  accepted df = true → filter (λ c, c ∉ columns df) required_cols = [].
Proof. intros [_ Hm]%andb_true_iff. by apply bool_decide_eq_true in Hm. Qed.

Lemma check_duplicates_columns f tbl df :
  accepted df = true → select_error f = None →
  columns (check_duplicates f tbl df)
  = if bool_decide ("unique_id" ∈ columns df) then columns df
    else columns df ++ ["unique_id"].
Proof.
  intros Ha Hs. unfold check_duplicates.
  pose proof Ha as [He _]%andb_true_iff. apply negb_true_iff in He.
  rewrite He, (bool_decide_eq_false_2 (_ ≠ [])), Hs; [done|].
  intros Hm. by apply Hm, accepted_none_missing.
Qed.

(** X9. On a frame that passes the guards, with the store read, the
    records [check_duplicates] returns are exactly the input records
    whose identity the table lacks, each as often as the input has it
    and in input order, with the identity in [unique_id] and every
    other cell as it was; the columns are the input's with [unique_id]
    added once. *)
Theorem check_duplicates_keeps_new_records f tbl df :
  accepted df = true → select_error f = None →
  rows (check_duplicates f tbl df)
  = add_id <$> filter (λ r, row_unique_id r ∉ existing_ids tbl) (rows df) ∧
  (∀ r c, cell (add_id r) c
          = if bool_decide (c = "unique_id") then VStr (row_unique_id r)
            else cell r c) ∧
  columns (check_duplicates f tbl df)
  = if bool_decide ("unique_id" ∈ columns df) then columns df
    else columns df ++ ["unique_id"].
Proof.
  intros Ha Hs. split; [|split].
  - rewrite check_duplicates_rows, Ha, Hs.
    by rewrite bool_decide_eq_true_2.
  - intros r c. unfold add_id. case_bool_decide as Hc.
    + subst c. apply cell_insert_eq.
    + by apply cell_insert_ne.
  - by apply check_duplicates_columns.
Qed.

Lemma insert_new_standards_cases f tbl df :
  (insert_new_standards f tbl df).1 = tbl ∧
  (insert_new_standards f tbl df).2.1 = true
  ∨
  select_error f = None ∧ accepted df = true ∧
  ∃ n,
    (insert_new_standards f tbl df).1
    = tbl ++ take n (rows (prepare (check_duplicates f tbl df))) ∧
    match insert_error f with
    | Some (e, written) =>
        n = chunksize * written ∧ (insert_new_standards f tbl df).2.1 = false
    | None =>
        n = length (rows (prepare (check_duplicates f tbl df))) ∧
        (insert_new_standards f tbl df).2.1 = true
    end.
Proof.
  unfold insert_new_standards.
  destruct (df_empty (check_duplicates f tbl df)) eqn:He.
  { left. by split. }
  right.
  assert (rows (check_duplicates f tbl df) ≠ []) as Hne.
  { intros Hr. by rewrite (df_empty_no_rows _ Hr) in He. }
  rewrite check_duplicates_rows in Hne.
  split; [|split].
  { case_bool_decide; [done|]. by rewrite andb_false_r in Hne. }
  { by destruct (accepted df). }
  destruct (insert_error f) as [[e written]|] eqn:Hi.
  - by exists (chunksize * written).
  - exists (length (rows (prepare (check_duplicates f tbl df)))).
    by rewrite firstn_all.
Qed.

(** X10. [insert_new_standards] only ever appends: the rows the table
    had stay where and what they were, behind them come the first of
    the records it prepared, in their order, and never more than the
    input has. It answers [False] only when the insert itself raised,
    and the chunks of 500 written before the exception are then in the
    table; when nothing raises every prepared record is appended. *)
Theorem insert_only_appends f tbl df :
  (∃ n, (insert_new_standards f tbl df).1
        = tbl ++ take n (rows (prepare (check_duplicates f tbl df)))) ∧
  (length (insert_new_standards f tbl df).1
   ≤ length tbl + length (rows df))%nat ∧
  ((insert_new_standards f tbl df).2.1 = false → is_Some (insert_error f)) ∧
  (∀ e written, insert_error f = Some (e, written) →
     (insert_new_standards f tbl df).1
     = tbl ++ take (500 * written)
                   (rows (prepare (check_duplicates f tbl df)))) ∧
  (insert_error f = None →
   (insert_new_standards f tbl df).1
   = tbl ++ rows (prepare (check_duplicates f tbl df))).
Proof.
  assert (length (rows (prepare (check_duplicates f tbl df)))
          ≤ length (rows df))%nat as Hlen.
  { rewrite prepare_length, check_duplicates_rows.
    destruct (_ && _); [|cbn [length]; lia].
    rewrite length_fmap. apply length_filter. }
  unfold insert_new_standards.
  destruct (df_empty (check_duplicates f tbl df)) eqn:He.
  - assert (rows (prepare (check_duplicates f tbl df)) = []) as Hnil.
    { apply nil_length_inv.
      by rewrite prepare_length, (check_duplicates_empty _ _ _ He). }
    rewrite Hnil, app_nil_r. cbn [fst snd].
    split; [exists 0; by rewrite app_nil_r|]. split; [lia|].
    split; [done|]. split; [|done].
    intros e written _. by rewrite take_nil, app_nil_r.
  - destruct (insert_error f) as [[e written]|]; cbn [fst snd].
    + split; [by eexists|]. split; [rewrite length_app, length_take; lia|].
      split; [by eauto|]. split; [|done]. by intros e' written' [= <- <-].
    + split.
      { exists (length (rows (prepare (check_duplicates f tbl df)))).
        by rewrite firstn_all. }
      split; [rewrite length_app; lia|]. split; [done|]. by split.
Qed.

Lemma Forall_assign_set c g d (P : value → Prop) :
  (∀ r, P (g r)) → Forall (λ r, P (cell r c)) (rows (assign c g d)).
Proof.
  intros Hg. unfold assign. cbn [rows]. apply Forall_fmap, Forall_forall.
  intros r _. cbn [compose]. rewrite cell_insert_eq. apply Hg.
Qed.

Lemma Forall_assign_keep c c' g d (P : value → Prop) :
  c ≠ c' → Forall (λ r, P (cell r c')) (rows d) →
  Forall (λ r, P (cell r c')) (rows (assign c g d)).
Proof.
  intros Hc Hd. unfold assign. cbn [rows]. apply Forall_fmap.
  eapply Forall_impl; [exact Hd|]. intros r Hr. cbn [compose].
  by rewrite cell_insert_ne.
Qed.

Lemma Forall_apply_default_keep col dflt c' d (P : value → Prop) :
  col ≠ c' → Forall (λ r, P (cell r c')) (rows d) →
  Forall (λ r, P (cell r c')) (rows (apply_default d (col, dflt))).
Proof.
  intros Hc Hd. unfold apply_default.
  case_bool_decide; [destruct dflt|]; by apply Forall_assign_keep.
Qed.

Lemma Forall_apply_default_filled col s d :
  Forall (λ r, isna (cell r col) = false)
         (rows (apply_default d (col, Some s))).
Proof.
  unfold apply_default. case_bool_decide.
  - apply (Forall_assign_set col _ d (λ v, isna v = false)).
    intros r. unfold fillna. by destruct (isna (cell r col)) eqn:Hn.
  - by apply (Forall_assign_set col _ d (λ v, isna v = false)).
Qed.

Lemma Forall_apply_default_none col d :
  Forall (λ r, cell r col = VNone) (rows d) →
  Forall (λ r, cell r col = VNone) (rows (apply_default d (col, None))).
Proof.
  intros Hd. unfold apply_default. case_bool_decide.
  - unfold assign. cbn [rows]. apply Forall_fmap.
    eapply Forall_impl; [exact Hd|]. intros r Hr. cbn [compose].
    by rewrite cell_insert_eq, Hr.
  - by apply (Forall_assign_set col _ d (λ v, v = VNone)).
Qed.

Lemma prepare_keeps c d (P : value → Prop) :
  c ∉ [ "aws_bucket"; "aws_key"; "aws_html_key"; "date_of_entry";
        "standard_title"; "specialty_task_group_area" ] →
  Forall (λ r, P (cell r c)) (rows d) →
  Forall (λ r, P (cell r c)) (rows (prepare d)).
Proof.
  intros Hc Hd. unfold prepare, defaults. cbn [foldl].
  rewrite !not_elem_of_cons in Hc.
  destruct Hc as (? & ? & ? & ? & ? & ? & _).
  do 4 (apply (Forall_apply_default_keep _ _ c _ P); [done|]).
  case_bool_decide;
    repeat (apply (Forall_assign_keep _ c _ _ P); [done|]); done.
Qed.

Lemma prepare_aws_key d :
  Forall (λ r, cell r "aws_key" = VNone) (rows (prepare d)).
Proof.
  unfold prepare, defaults. cbn [foldl].
  apply (Forall_apply_default_keep _ _ "aws_key" _ (λ v, v = VNone)); [done|].
  apply Forall_apply_default_none.
  do 2 (apply (Forall_apply_default_keep _ _ "aws_key" _ (λ v, v = VNone));
        [done|]).
  case_bool_decide;
    repeat (apply (Forall_assign_keep _ "aws_key" _ _ (λ v, v = VNone));
            [done|]);
    by apply (Forall_assign_set "aws_key" _ _ (λ v, v = VNone)).
Qed.

Lemma prepare_aws_html_key d :
  Forall (λ r, cell r "aws_html_key" = VNone) (rows (prepare d)).
Proof.
  unfold prepare, defaults. cbn [foldl].
  apply Forall_apply_default_none.
  do 3 (apply (Forall_apply_default_keep _ _ "aws_html_key" _ (λ v, v = VNone));
        [done|]).
  case_bool_decide;
    repeat (apply (Forall_assign_keep _ "aws_html_key" _ _ (λ v, v = VNone));
            [done|]);
    by apply (Forall_assign_set "aws_html_key" _ _ (λ v, v = VNone)).
Qed.

Lemma prepare_aws_bucket d :
  Forall (λ r, cell r "aws_bucket" = VStr s3_bucket) (rows (prepare d)).
Proof.
  unfold prepare, defaults. cbn [foldl].
  do 4 (apply (Forall_apply_default_keep _ _ "aws_bucket" _
                 (λ v, v = VStr s3_bucket)); [done|]).
  case_bool_decide;
    repeat (apply (Forall_assign_keep _ "aws_bucket" _ _
                     (λ v, v = VStr s3_bucket)); [done|]);
    by apply (Forall_assign_set "aws_bucket" _ _ (λ v, v = VStr s3_bucket)).
Qed.

Lemma prepare_title d :
  Forall (λ r, isna (cell r "standard_title") = false) (rows (prepare d)).
Proof.
  unfold prepare, defaults. cbn [foldl].
  do 3 (apply (Forall_apply_default_keep _ _ "standard_title" _
                 (λ v, isna v = false)); [done|]).
  apply Forall_apply_default_filled.
Qed.

Lemma prepare_area d :
  Forall (λ r, isna (cell r "specialty_task_group_area") = false)
         (rows (prepare d)).
Proof.
  unfold prepare, defaults. cbn [foldl].
  do 2 (apply (Forall_apply_default_keep _ _ "specialty_task_group_area" _
                 (λ v, isna v = false)); [done|]).
  apply Forall_apply_default_filled.
Qed.

End CatalogMore.

(** ** Properties of the queries and reports *)

Section QueriesFacts.

Context `{!Externals} `{!SplitLib}.

Lemma unprocessed_negb_processed r : unprocessed r = negb (processed r).
Proof.
  unfold unprocessed, processed, sql_null_or_empty.
  destruct (cell r "aws_key") as [k| |], (cell r "aws_html_key") as [h| |];
    try done; repeat case_bool_decide; try done; by rewrite ?orb_true_r.
Qed.

Lemma processed_of_cells r :
  cell r "aws_key" = VNone → processed r = false ∧ unprocessed r = true.
Proof.
  intros Hk. rewrite unprocessed_negb_processed.
  unfold processed. by rewrite Hk.
Qed.

(** X11. Every row [insert_new_standards] appends starts without
    artifact locations, hence unprocessed, names the bucket, has a title
    and a specialty area that are not null, and carries an identity the
    table did not have. *)
Theorem inserted_rows_start_unprocessed f tbl df added :
  (insert_new_standards f tbl df).1 = tbl ++ added →
  Forall (λ r, cell r "aws_key" = VNone ∧ cell r "aws_html_key" = VNone ∧
               cell r "aws_bucket" = VStr s3_bucket ∧
               processed r = false ∧ unprocessed r = true ∧
               isna (cell r "standard_title") = false ∧
               isna (cell r "specialty_task_group_area") = false ∧
               ∃ id, cell r "unique_id" = VStr id ∧ id ∉ existing_ids tbl)
         added.
Proof.
  intros Hadded.
  destruct (insert_new_standards_cases f tbl df)
    as [[Ht _]|(Hs & Ha & n & Ht & _)]; rewrite Ht in Hadded.
  { rewrite <- (app_nil_r tbl) in Hadded at 1.
    apply app_inv_head in Hadded as <-. constructor. }
  apply app_inv_head in Hadded as <-. apply Forall_take.
  assert (Forall (λ r, ∃ id, cell r "unique_id" = VStr id ∧
                             id ∉ existing_ids tbl)
                 (rows (prepare (check_duplicates f tbl df)))) as Hid.
  { apply (prepare_keeps "unique_id" _
             (λ v, ∃ id, v = VStr id ∧ id ∉ existing_ids tbl)).
    { rewrite !not_elem_of_cons. repeat split; try done. apply not_elem_of_nil. }
    rewrite check_duplicates_rows, Ha, Hs.
    rewrite bool_decide_eq_true_2 by done. cbn [andb].
    apply Forall_fmap, Forall_forall. intros r Hr. cbn [compose].
    unfold add_id. rewrite cell_insert_eq. exists (row_unique_id r).
    split; [done|]. unfold new_rows in Hr.
    by apply list_elem_of_filter in Hr as [? _]. }
  pose proof (prepare_aws_key (check_duplicates f tbl df)) as Hk.
  pose proof (prepare_aws_html_key (check_duplicates f tbl df)) as Hh.
  pose proof (prepare_aws_bucket (check_duplicates f tbl df)) as Hb.
  pose proof (prepare_title (check_duplicates f tbl df)) as Htitle.
  pose proof (prepare_area (check_duplicates f tbl df)) as Harea.
  rewrite Forall_forall in *. intros r Hr.
  destruct (processed_of_cells r (Hk r Hr)) as [Hp Hu].
  split; [by apply Hk|]. split; [by apply Hh|]. split; [by apply Hb|].
  split; [done|]. split; [done|]. split; [by apply Htitle|].
  split; [by apply Harea|by apply Hid].
Qed.

(** X12. If no identity occurs twice in the table and none occurs twice
    among the new records of the input, then none occurs twice in the
    table after [insert_new_standards], whatever the store does. *)
Theorem identities_stay_unique f tbl df :
  NoDup (table_ids tbl) →
  NoDup (row_unique_id <$> new_rows tbl df) →
  NoDup (table_ids (insert_new_standards f tbl df).1).
Proof.
  intros Htbl Hnew.
  destruct (insert_new_standards_cases f tbl df)
    as [[-> _]|(Hs & Ha & n & -> & _)]; [done|].
  assert (NoDup (table_ids
                   (tbl ++ rows (prepare (check_duplicates f tbl df)))))
    as Hall.
  { rewrite table_ids_app, prepare_table_ids, check_duplicates_rows, Ha, Hs.
    rewrite bool_decide_eq_true_2 by done. cbn [andb].
    rewrite table_ids_add_id. apply NoDup_app. split; [done|]. split; [|done].
    intros id Hin (r & -> & Hr)%list_elem_of_fmap.
    unfold new_rows in Hr. apply list_elem_of_filter in Hr as [Hr _].
    apply Hr. rewrite existing_ids_table_ids. by apply elem_of_list_to_set. }
  rewrite <- (take_drop n (rows (prepare (check_duplicates f tbl df)))) in Hall.
  rewrite app_assoc, table_ids_app in Hall.
  by apply NoDup_app in Hall as [Hall _].
Qed.

Lemma set_s3_paths_other pdf html (r : row) c :
  c ≠ "aws_key" → c ≠ "aws_html_key" →
  cell (set_s3_paths pdf html r) c = cell r c.
Proof.
  intros Hk Hh. unfold set_s3_paths.
  by rewrite !cell_insert_ne.
Qed.

Lemma set_s3_paths_twice pdf html (r : row) :
  set_s3_paths pdf html (set_s3_paths pdf html r) = set_s3_paths pdf html r.
Proof.
  unfold set_s3_paths.
  rewrite (insert_insert_ne _ "aws_key" "aws_html_key") by done.
  by rewrite !insert_insert_eq.
Qed.

Lemma length_filter_fmap_same {A} (P : A → Prop) `{!∀ x, Decision (P x)}
    (g : A → A) (l : list A) :
  (∀ x, P (g x) ↔ P x) → length (filter P (g <$> l)) = length (filter P l).
Proof.
  intros Hg. induction l as [|x l IH]; [done|].
  rewrite fmap_cons, !filter_cons.
  destruct (decide (P x)) as [Hx|Hx].
  - rewrite decide_True by (by apply Hg). cbn [length]. by rewrite IH.
  - rewrite decide_False by (by rewrite Hg). done.
Qed.

(** X13. [update_s3_paths] changes nothing but the two location cells:
    the table keeps its length and every other cell of every row, and a
    second call with the same arguments leaves the table as the first
    one left it and returns what the first returned. *)
Theorem update_touches_two_cells err tbl url pdf html :
  length (update_s3_paths err tbl url pdf html).1 = length tbl ∧
  (∀ i (r r' : row) c,
     tbl !! i = Some r →
     (update_s3_paths err tbl url pdf html).1 !! i = Some r' →
     c ≠ "aws_key" → c ≠ "aws_html_key" → cell r' c = cell r c) ∧
  update_s3_paths err (update_s3_paths err tbl url pdf html).1 url pdf html
  = update_s3_paths err tbl url pdf html.
Proof.
  destruct err.
  { split; [done|]. split; [|done]. intros i r r' c Hr Hr' _ _.
    rewrite update_s3_paths_error in Hr'. cbn [fst] in Hr'. congruence. }
  split; [unfold update_s3_paths; cbn [fst]; apply length_fmap|].
  split.
  - intros i r r' c Hr Hr' Hk Hh.
    rewrite update_s3_paths_lookup, Hr in Hr'. injection Hr' as <-.
    destruct (sql_eq _ url); [by apply set_s3_paths_other|done].
  - unfold update_s3_paths. cbn [fst]. f_equal.
    + rewrite <- list_fmap_compose. apply list_fmap_ext. intros _ r _.
      cbn [compose]. destruct (sql_eq (cell r "title_link") url) eqn:Hs.
      * rewrite set_s3_paths_other, Hs by done. apply set_s3_paths_twice.
      * by rewrite Hs.
    + rewrite (length_filter_fmap_same
                 (λ r : row, sql_eq (cell r "title_link") url = true));
        [done|].
      intros r.
      destruct (sql_eq (cell r "title_link") url) eqn:Hs; [|by rewrite Hs].
      by rewrite set_s3_paths_other, Hs.
Qed.

Lemma clear_s3_paths_other (r : row) c :
  c ≠ "aws_key" → c ≠ "aws_html_key" → cell (clear_s3_paths r) c = cell r c.
Proof. intros Hk Hh. unfold clear_s3_paths. by rewrite !cell_insert_ne. Qed.

Lemma clear_s3_paths_unprocessed (r : row) :
  processed (clear_s3_paths r) = false ∧ unprocessed (clear_s3_paths r) = true.
Proof.
  apply processed_of_cells. unfold clear_s3_paths.
  rewrite cell_insert_ne by done. apply cell_insert_eq.
Qed.

(** The two counts of [get_sync_status] on a table. *)
Lemma processed_plus_pending tbl :
  length (filter (λ r, processed r = true) tbl) + length (pending_rows tbl)
  = length tbl.
Proof.
  unfold pending_rows. induction tbl as [|r tbl IH]; [done|].
  rewrite !filter_cons, unprocessed_negb_processed.
  destruct (processed r); repeat case_decide; try done; cbn [length negb] in *;
    lia.
Qed.

(** X14. The status [get_sync_status] returns is consistent: the
    processed count is between zero and the total, and [pending] is
    their difference, never negative. When the query runs, the total is
    the number of rows and [pending] is the number of rows
    [get_unprocessed_standards] selects; when it raises, all three are
    zero. *)
Theorem sync_status_counts err tbl :
  let s := get_sync_status err tbl in
  (0 ≤ db_processed s ≤ db_total s)%Z ∧
  (pending s = db_total s - db_processed s)%Z ∧
  (0 ≤ pending s)%Z ∧
  (err = false →
   db_total s = Z.of_nat (length tbl) ∧
   pending s = Z.of_nat (length (pending_rows tbl))) ∧
  (err = true → db_total s = 0%Z ∧ db_processed s = 0%Z ∧ pending s = 0%Z).
Proof.
  pose proof (processed_plus_pending tbl) as Hsum.
  destruct err; unfold get_sync_status; cbn [db_total db_processed pending].
  - repeat split; done.
  - repeat split; try done; lia.
Qed.

(** X15. After [reset_s3_paths] every row is unprocessed and everything
    but the two location cells is as before, so the status counts no
    processed row and as many pending rows as the table has. *)
Theorem reset_makes_all_pending tbl :
  length (reset_s3_paths false tbl).1 = length tbl ∧
  Forall (λ r, processed r = false ∧ unprocessed r = true)
         (reset_s3_paths false tbl).1 ∧
  (∀ i (r r' : row) c,
     tbl !! i = Some r → (reset_s3_paths false tbl).1 !! i = Some r' →
     c ≠ "aws_key" → c ≠ "aws_html_key" → cell r' c = cell r c) ∧
  pending_rows (reset_s3_paths false tbl).1 = (reset_s3_paths false tbl).1 ∧
  db_processed (get_sync_status false (reset_s3_paths false tbl).1) = 0%Z ∧
  pending (get_sync_status false (reset_s3_paths false tbl).1)
  = Z.of_nat (length tbl).
Proof.
  unfold reset_s3_paths. cbn [fst].
  assert (Forall (λ r, processed r = false ∧ unprocessed r = true)
                 (clear_s3_paths <$> tbl)) as Hall.
  { apply Forall_fmap, Forall_forall. intros r _.
    apply clear_s3_paths_unprocessed. }
  assert (pending_rows (clear_s3_paths <$> tbl) = clear_s3_paths <$> tbl)
    as Hpend.
  { unfold pending_rows. induction (clear_s3_paths <$> tbl) as [|r l IH];
      [done|].
    apply Forall_cons in Hall as [[_ Hr] Hall].
    rewrite filter_cons, decide_True by done. by rewrite IH. }
  pose proof (processed_plus_pending (clear_s3_paths <$> tbl)) as Hsum.
  rewrite Hpend, length_fmap in Hsum.
  split; [apply length_fmap|]. split; [done|]. split; [|split; [done|]].
  - intros i r r' c Hr Hr' Hk Hh.
    rewrite list_lookup_fmap, Hr in Hr'. injection Hr' as <-.
    by apply clear_s3_paths_other.
  - unfold get_sync_status. cbn [db_processed pending].
    rewrite length_fmap. split; lia.
Qed.

Lemma select_row_cell (r : row) c :
  c ∈ unprocessed_columns → cell (select_row r) c = sql_read (cell r c).
Proof.
  intros Hc. unfold cell at 1, select_row.
  rewrite lookup_total_alt, lookup_list_to_map_fmap.
  by rewrite bool_decide_eq_true_2.
Qed.

Lemma sql_read_str v : isna v = false → sql_read v = v ∧ ∃ t, v = VStr t.
Proof. destruct v as [t| |]; try done. intros _. split; [done|by exists t]. Qed.

Lemma with_filenames_cells (r o : row) :
  with_filenames r = Some o →
  ∃ title,
    cell r "standard_title" = VStr title ∧
    cell o "pdf_filename"
    = VStr ((py_str (cell r "recognition_number") +:+ "_" +:+ title_stem title)
            +:+ ".pdf") ∧
    cell o "html_filename"
    = VStr ((py_str (cell r "recognition_number") +:+ "_" +:+ title_stem title)
            +:+ ".html") ∧
    ∀ c, c ≠ "pdf_filename" → c ≠ "html_filename" → cell o c = cell r c.
Proof.
  unfold with_filenames.
  destruct (cell r "standard_title") as [title| |] eqn:Ht; try done.
  intros [= <-]. exists title. split; [done|]. split; [|split].
  - rewrite cell_insert_ne by done. apply cell_insert_eq.
  - apply cell_insert_eq.
  - intros c Hp Hh. by rewrite !cell_insert_ne.
Qed.

Lemma get_unprocessed_standards_rows tbl :
  rows (get_unprocessed_standards false tbl)
  = default [] (mapM with_filenames (select_row <$> pending_rows tbl)).
Proof.
  unfold get_unprocessed_standards, pending_rows.
  destruct (select_row <$> filter (λ r, unprocessed r = true) tbl)
    as [|x sel]; [done|].
  by destruct (mapM with_filenames (x :: sel)).
Qed.

Lemma with_filenames_all tbl :
  Forall (λ r, isna (cell r "standard_title") = false) (pending_rows tbl) →
  is_Some (mapM with_filenames (select_row <$> pending_rows tbl)).
Proof.
  intros Htitles.
  apply mapM_is_Some, Forall_fmap. eapply Forall_impl; [exact Htitles|].
  intros r Hr. cbn [compose]. unfold with_filenames.
  rewrite select_row_cell by (unfold unprocessed_columns; set_solver).
  destruct (sql_read_str _ Hr) as [-> [t ->]]. by eexists.
Qed.

Lemma listed_row tbl out i r :
  mapM with_filenames (select_row <$> pending_rows tbl) = Some out →
  pending_rows tbl !! i = Some r →
  ∃ (o : row) title,
    out !! i = Some o ∧
    sql_read (cell r "standard_title") = VStr title ∧
    cell o "title_link" = sql_read (cell r "title_link") ∧
    cell o "unique_id" = sql_read (cell r "unique_id") ∧
    entry_of_row o
    = Some {| title_link := sql_read (cell r "title_link");
              pdf_filename :=
                (py_str (sql_read (cell r "recognition_number")) +:+ "_" +:+
                 title_stem title) +:+ ".pdf";
              html_filename :=
                (py_str (sql_read (cell r "recognition_number")) +:+ "_" +:+
                 title_stem title) +:+ ".html" |}.
Proof.
  intros Hout%mapM_Some Hr.
  assert ((select_row <$> pending_rows tbl) !! i = Some (select_row r)) as Hsel.
  { by rewrite list_lookup_fmap, Hr. }
  destruct (Forall2_lookup_l _ _ _ _ _ Hout Hsel) as (o & Ho & Hwith).
  destruct (with_filenames_cells _ _ Hwith) as (title & Ht & Hpdf & Hhtml & Hrest).
  rewrite !select_row_cell in * by (unfold unprocessed_columns; set_solver).
  exists o, title. split; [done|]. split; [done|].
  assert (cell o "title_link" = sql_read (cell r "title_link")) as Hlink.
  { rewrite Hrest by done.
    apply select_row_cell. unfold unprocessed_columns. set_solver. }
  assert (cell o "unique_id" = sql_read (cell r "unique_id")) as Hid.
  { rewrite Hrest by done.
    apply select_row_cell. unfold unprocessed_columns. set_solver. }
  split; [done|]. split; [done|].
  unfold entry_of_row. by rewrite Hpdf, Hhtml, Hlink.
Qed.

(** X16. When no unprocessed row has a NULL title,
    [get_unprocessed_standards] returns exactly the unprocessed rows of
    the table, in table order: each with its link and identity, and with
    two file names that share one stem, the recognition number and the
    first three words of the title, and differ in the extension. Such a
    row is one [process_standard] can read. *)
Theorem unprocessed_rows_listed tbl :
  Forall (λ r, isna (cell r "standard_title") = false) (pending_rows tbl) →
  length (rows (get_unprocessed_standards false tbl))
  = length (pending_rows tbl) ∧
  ∀ i r, pending_rows tbl !! i = Some r →
    ∃ (o : row) title,
      rows (get_unprocessed_standards false tbl) !! i = Some o ∧
      cell r "standard_title" = VStr title ∧
      cell o "title_link" = sql_read (cell r "title_link") ∧
      cell o "unique_id" = sql_read (cell r "unique_id") ∧
      entry_of_row o
      = Some {| title_link := sql_read (cell r "title_link");
                pdf_filename :=
                  (py_str (sql_read (cell r "recognition_number")) +:+ "_" +:+
                   title_stem title) +:+ ".pdf";
                html_filename :=
                  (py_str (sql_read (cell r "recognition_number")) +:+ "_" +:+
                   title_stem title) +:+ ".html" |}.
Proof.
  intros Htitles. rewrite get_unprocessed_standards_rows.
  destruct (with_filenames_all tbl Htitles) as [out Hout].
  rewrite Hout. cbn [default]. split.
  { apply mapM_Some, Forall2_length in Hout. by rewrite length_fmap in Hout. }
  intros i r Hr.
  destruct (listed_row tbl out i r Hout Hr)
    as (o & title & Ho & Ht & Hlink & Hid & He).
  rewrite Forall_forall in Htitles.
  destruct (sql_read_str _ (Htitles r ltac:(by eapply list_elem_of_lookup_2)))
    as [Heq _].
  rewrite Heq in Ht. by exists o, title.
Qed.

(** X17. One unprocessed row with a NULL title empties the answer: the
    [.split()] on it raises, the exception is caught, and
    [get_unprocessed_standards] returns the empty frame although rows
    are pending. *)
Theorem null_title_hides_pending_rows query_error tbl (r : row) :
  r ∈ tbl → unprocessed r = true → isna (cell r "standard_title") = true →
  get_unprocessed_standards query_error tbl = empty_frame ∧
  pending_rows tbl ≠ [].
Proof.
  intros Hr Hu Hna.
  assert (r ∈ pending_rows tbl) as Hp by (by apply list_elem_of_filter).
  split; [|by intros Hnil; rewrite Hnil in Hp; apply elem_of_nil in Hp].
  unfold get_unprocessed_standards. destruct query_error; [done|].
  fold (pending_rows tbl).
  assert (mapM with_filenames (select_row <$> pending_rows tbl) = None) as Hnone.
  { apply mapM_None, Exists_exists. exists (select_row r).
    split; [by apply list_elem_of_fmap_2|].
    unfold with_filenames.
    rewrite select_row_cell by (unfold unprocessed_columns; set_solver).
    unfold sql_read. by rewrite Hna. }
  destruct (select_row <$> pending_rows tbl) as [|x sel] eqn:Hsel.
  - apply fmap_nil_inv in Hsel. rewrite Hsel in Hp. by apply elem_of_nil in Hp.
  - by rewrite Hnone.
Qed.

(** X18. The three operations that write the table keep every title
    non-null when the table's titles were: [insert_new_standards] fills
    the titles it inserts, the two updates do not touch the column. On
    such a table [get_unprocessed_standards] lists all pending rows. *)
Theorem titles_stay_present f err tbl df url pdf html :
  titles_present tbl →
  titles_present (insert_new_standards f tbl df).1 ∧
  titles_present (update_s3_paths err tbl url pdf html).1 ∧
  titles_present (reset_s3_paths err tbl).1 ∧
  length (rows (get_unprocessed_standards false tbl))
  = length (pending_rows tbl).
Proof.
  intros Htbl. unfold titles_present in *. split; [|split; [|split]].
  - destruct (insert_new_standards_cases f tbl df)
      as [[-> _]|(_ & _ & n & -> & _)]; [done|].
    apply Forall_app. split; [done|]. apply Forall_take, prepare_title.
  - destruct err; [done|]. unfold update_s3_paths. cbn [fst].
    apply Forall_fmap. eapply Forall_impl; [exact Htbl|].
    intros r Hr. cbn [compose].
    destruct (sql_eq _ url); [|done]. by rewrite set_s3_paths_other.
  - destruct err; [done|]. unfold reset_s3_paths. cbn [fst].
    apply Forall_fmap. eapply Forall_impl; [exact Htbl|].
    intros r Hr. cbn [compose]. by rewrite clear_s3_paths_other.
  - rewrite get_unprocessed_standards_rows.
    destruct (with_filenames_all tbl) as [out Hout].
    { unfold pending_rows. rewrite Forall_forall in *.
      intros r [_ Hr]%list_elem_of_filter. auto. }
    rewrite Hout. cbn [default].
    apply mapM_Some, Forall2_length in Hout. by rewrite length_fmap in Hout.
Qed.

(** X19. What [process_fda_standards] reports. It fails exactly when the
    connection or the insert raised, and then gives no counts. On
    success [new_records] is the number of input records, also when
    fewer or none were new; the status is the one read before the
    insert; [pending_pdfs] is counted after it. The table it leaves is
    the one [insert_new_standards] leaves. *)
Theorem sync_report_counts f tbl df :
  let res := process_fda_standards f tbl df in
  (success res.2 = false ↔
   is_Some (connect_error f) ∨
   (insert_new_standards (store_faults f) tbl df).2.1 = false) ∧
  (success res.2 = false →
   new_records res.2 = None ∧ pending_pdfs res.2 = None) ∧
  (success res.2 = true →
   res.1 = (insert_new_standards (store_faults f) tbl df).1 ∧
   new_records res.2 = Some (length (rows df)) ∧
   sync_status res.2 = Some (get_sync_status (status_error f) tbl) ∧
   pending_pdfs res.2
   = Some (length (rows (get_unprocessed_standards (query_error f) res.1)))) ∧
  (is_Some (connect_error f) → res.1 = tbl).
Proof.
  unfold process_fda_standards.
  destruct (connect_error f) as [e|].
  { cbn [fst snd failure success new_records pending_pdfs].
    repeat split; try done; eauto. }
  destruct (insert_new_standards (store_faults f) tbl df) as [tbl' [ok msg]].
  destruct ok; cbn [negb fst snd failure success new_records pending_pdfs
                    sync_status].
  - repeat split; try done; try (by intros [[? [=]]|[=]]);
      by intros [? [=]].
  - repeat split; try done; eauto; by intros [? [=]].
Qed.

End QueriesFacts.

(** ** Further properties of the artifact pipeline *)

Section ProcessorMore.

Context `{!Externals}.

Lemma length_update_s3_paths err tbl url pdf html :
  length (update_s3_paths err tbl url pdf html).1 = length tbl.
Proof.
  unfold update_s3_paths. destruct err; [done|]. cbn [fst]. apply length_fmap.
Qed.

#[local] Opaque update_s3_paths.

(** X20. An upload that succeeds puts the key in the bucket, where
    [file_exists] finds it unless the probe itself fails, and takes
    nothing out of the bucket; table and disk are not touched, and the
    file uploaded was on the disk. An upload that answers [False]
    changes nothing. *)
Theorem uploaded_file_is_found env w local_path key w' ok :
  upload_file env w local_path key = Some (w', ok) →
  if ok then
    key ∈ bucket w' ∧ bucket w ⊆ bucket w' ∧ db w' = db w ∧
    disk w' = disk w ∧ (∃ path, local_path = Some path ∧ path ∈ disk w) ∧
    (head_object env key = Answered → file_exists env w' key = Some true) ∧
    (∀ k, file_exists env w k = Some true → file_exists env w' k = Some true)
  else w' = w.
Proof.
  unfold upload_file. destruct local_path as [path|]; [|done].
  case_bool_decide as Hdisk; [|done].
  destruct (upload env key); [|by intros [= <- <-]|done].
  intros [= <- <-]. cbn [bucket db disk].
  split; [set_solver|]. split; [set_solver|]. split; [done|]. split; [done|].
  split; [by exists path|]. unfold file_exists. cbn [bucket]. split.
  - intros ->. rewrite bool_decide_eq_true_2 by set_solver. done.
  - intros k. destruct (head_object env k); [|done..].
    intros [= Hk]. apply bool_decide_eq_true in Hk.
    rewrite bool_decide_eq_true_2 by set_solver. done.
Qed.

(** X21. A run of [process_standard] never removes an object from the
    bucket and adds none but the two keys of its entry; it neither adds
    nor removes a row of the table; and it leaves no file on the disk
    that was not there except the two files of its entry. *)
Theorem process_standard_stays_in_bounds p env w e :
  bucket w ⊆ bucket (process_standard p env w e).1 ∧
  bucket (process_standard p env w e).1
    ⊆ bucket w ∪ {[ pdf_key e; html_key e ]} ∧
  length (db (process_standard p env w e).1) = length (db w) ∧
  disk (process_standard p env w e).1
    ⊆ disk w ∪ {[ pdf_local p e; html_local p e ]}.
Proof.
  process_names p env w e.
  process_runs p env w e k1 k2 b1 b2;
    rewrite ?length_update_s3_paths; (split; [|split; [|split]]);
    try done; set_unfold; intros; tauto.
Qed.

Lemma file_exists_in_bucket env w k :
  file_exists env w k = Some true → k ∈ bucket w.
Proof.
  unfold file_exists. destruct (head_object env k); [|done..].
  intros [= Hk]. by apply bool_decide_eq_true in Hk.
Qed.

Lemma success_stores_both p env w e :
  use_s3 p = true →
  (process_standard p env w e).2 = true →
  pdf_key e ∈ bucket (process_standard p env w e).1 ∧
  html_key e ∈ bucket (process_standard p env w e).1 ∧
  database env ≠ ConnectRaises.
Proof.
  process_names p env w e. intros Hs Hok.
  process_runs p env w e k1 k2 b1 b2; try done;
    repeat match goal with
           | H : file_exists _ _ _ = Some true |- _ =>
               apply file_exists_in_bucket in H
           end;
    (split; [|split]); try done; set_unfold; tauto.
Qed.

(** X22. With S3 in use, a run returns [True] only on two ways: both
    objects were found, or the detail data was obtained and both files
    were rendered and uploaded. Either way the database connection did
    not fail, and both objects of the entry are in the bucket
    afterwards. *)
Theorem success_means_both_stored p env w e :
  use_s3 p = true →
  (process_standard p env w e).2 = true →
  (both_exist env w e = Some true ∨
   (both_exist env w e = Some false ∧ renders_both env e ∧
    both_uploaded env e)) ∧
  pdf_key e ∈ bucket (process_standard p env w e).1 ∧
  html_key e ∈ bucket (process_standard p env w e).1 ∧
  database env ≠ ConnectRaises.
Proof.
  intros Hs Hok. split; [|by apply success_stores_both].
  revert Hs Hok. process_names p env w e. intros Hs Hok.
  process_runs p env w e k1 k2 b1 b2; try done; auto 10.
Qed.

Lemma skip_path p env w e :
  use_s3 p = true → both_exist env w e = Some true →
  database env ≠ ConnectRaises →
  (process_standard p env w e).2 = true ∧
  bucket (process_standard p env w e).1 = bucket w ∧
  disk (process_standard p env w e).1 = disk w ∧
  record_paths env w (title_link e) (sanitize_filename (pdf_filename e))
    (sanitize_filename (html_filename e))
  = Some (process_standard p env w e).1.
Proof.
  process_names p env w e. intros Hs Hex Hdb.
  process_runs p env w e k1 k2 b1 b2; done.
Qed.

(** X23. Once a run for an entry has returned [True] with S3 in use, a
    run for any entry with the same two file names (the same entry
    again, or another row whose recognition number and first title
    words coincide) finds both objects, renders and uploads nothing,
    returns [True], and only records the existing keys under its own
    link, provided the two probes work. *)
Theorem same_file_names_are_not_uploaded_again p env w e1 e2 :
  use_s3 p = true →
  (process_standard p env w e1).2 = true →
  pdf_filename e2 = pdf_filename e1 →
  html_filename e2 = html_filename e1 →
  head_object env (pdf_key e1) = Answered →
  head_object env (html_key e1) = Answered →
  let w1 := (process_standard p env w e1).1 in
  both_exist env w1 e2 = Some true ∧
  (process_standard p env w1 e2).2 = true ∧
  bucket (process_standard p env w1 e2).1 = bucket w1 ∧
  disk (process_standard p env w1 e2).1 = disk w1 ∧
  record_paths env w1 (title_link e2) (sanitize_filename (pdf_filename e1))
    (sanitize_filename (html_filename e1))
  = Some (process_standard p env w1 e2).1.
Proof.
  intros Hs Hok Hpdf Hhtml Hh1 Hh2 w1.
  destruct (success_stores_both p env w e1 Hs Hok) as (Hk1 & Hk2 & Hdb).
  assert (pdf_key e2 = pdf_key e1) as Hkey1 by (unfold pdf_key; by rewrite Hpdf).
  assert (html_key e2 = html_key e1) as Hkey2
    by (unfold html_key; by rewrite Hhtml).
  assert (both_exist env w1 e2 = Some true) as Hex.
  { unfold both_exist, file_exists. rewrite Hkey1, Hkey2, Hh1, Hh2.
    rewrite bool_decide_eq_true_2 by done. cbn [mbind option_bind].
    by rewrite bool_decide_eq_true_2. }
  split; [done|].
  destruct (skip_path p env w1 e2 Hs Hex Hdb) as (? & ? & ? & Hrec).
  rewrite Hpdf, Hhtml in Hrec. done.
Qed.

(** X24. Without S3 a run touches neither the table nor the bucket and
    removes no file; it returns [True] exactly when the detail data was
    obtained, and then the PDF, if it was rendered, is on the disk. *)
Theorem without_s3_nothing_is_stored p env w e :
  use_s3 p = false →
  db (process_standard p env w e).1 = db w ∧
  bucket (process_standard p env w e).1 = bucket w ∧
  (process_standard p env w e).2 = detail_found env (title_link e) ∧
  disk w ⊆ disk (process_standard p env w e).1 ∧
  (detail_found env (title_link e) = true →
   pdf_renders env (sanitize_filename (sanitize_filename (pdf_filename e))) = true →
   pdf_local p e ∈ disk (process_standard p env w e).1).
Proof.
  process_names p env w e. intros Hs.
  process_runs p env w e k1 k2 b1 b2;
    (split; [|split; [|split; [|split]]]); try done; set_unfold; intros; tauto.
Qed.

(** X25. The result of the recording is dropped: when the probes
    answered that the objects are not both there and both files are
    rendered and uploaded, but the update raises, or runs and finds no
    row with the entry's link, the run still returns [True] and removes
    the two local files, while the table is as it was. *)
Theorem unrecorded_run_still_succeeds p env w e :
  use_s3 p = true →
  both_exist env w e = Some false →
  renders_both env e →
  both_uploaded env e →
  pdf_local p e ≠ html_local p e →
  database env = UpdateRaises ∨
  (database env = Runs ∧
   ∀ r, r ∈ db w → sql_eq (cell r "title_link") (title_link e) = false) →
  (process_standard p env w e).2 = true ∧
  db (process_standard p env w e).1 = db w ∧
  pdf_key e ∈ bucket (process_standard p env w e).1 ∧
  html_key e ∈ bucket (process_standard p env w e).1 ∧
  (pdf_local p e ∉ disk (process_standard p env w e).1) ∧
  (html_local p e ∉ disk (process_standard p env w e).1).
Proof.
  process_names p env w e.
  intros Hs Hex (Hd & Hr1 & Hr2) [Hu1 Hu2] Hne [Hdb|[Hdb Hnone]];
    process_runs p env w e k1 k2 b1 b2;
    rewrite ?update_s3_paths_error, ?(update_s3_paths_no_match _ _ _ _ Hnone);
    try done; cbn [fst]; repeat split; try done; set_unfold;
    intuition congruence.
Qed.

(** X26. An entry whose link is NULL is never recorded: whatever the
    run does, the table is as it was. *)
Theorem null_link_is_never_recorded p env w e :
  (∀ u, title_link e ≠ VStr u) →
  db (process_standard p env w e).1 = db w.
Proof.
  intros Hnull.
  assert (∀ pdf html,
            (update_s3_paths false (db w) (title_link e) pdf html).1 = db w)
    as Hnone.
  { intros pdf html. apply update_s3_paths_no_match. intros r _.
    unfold sql_eq. destruct (cell r "title_link"); try done.
    destruct (title_link e) as [u| |]; try done. by destruct (Hnull u). }
  revert Hnone. process_names p env w e. intros Hnone.
  process_runs p env w e k1 k2 b1 b2;
    rewrite ?update_s3_paths_error, ?Hnone; done.
Qed.

End ProcessorMore.

(** ** File names, and the pipeline as a whole *)

Section PipelineMore.

Context `{!Externals} `{!SplitLib}.

Lemma replace_chars_removes bad a s :
  a ∈ bad → a ≠ "_"%char → free_of a (replace_chars bad s).
Proof.
  intros Ha Hu. induction s as [|b s IH]; [done|].
  cbn [replace_chars free_of]. split; [|done].
  case_bool_decide; [done|]. by intros <-.
Qed.

Lemma replace_chars_keeps_free bad a s :
  a ≠ "_"%char → free_of a s → free_of a (replace_chars bad s).
Proof.
  intros Hu. induction s as [|b s IH]; [done|].
  cbn [replace_chars free_of]. intros [Hb Hs]. split; [|by apply IH].
  by case_bool_decide.
Qed.

Lemma replace_chars_clean bad s :
  (∀ a, a ∈ bad → free_of a s) → replace_chars bad s = s.
Proof.
  induction s as [|b s IH]; [done|]. intros Hfree.
  cbn [replace_chars]. rewrite IH by (intros a Ha; by apply (Hfree a Ha)).
  case_bool_decide as Hb; [|done]. by destruct (Hfree b Hb).
Qed.

Lemma replace_chars_length bad s :
  String.length (replace_chars bad s) = String.length s.
Proof.
  induction s as [|b s IH]; [done|].
  cbn [replace_chars String.length]. by rewrite IH.
Qed.

(** X27. A file name that went through [sanitize_filename] holds none
    of the characters it replaces, and sanitising it again changes
    nothing, so the file [generate_pdf] writes has the name the S3 key
    ends in; this for a [strip] that only takes characters away and does
    nothing when applied twice. Before the [strip] the name has the
    length it had. *)
Theorem sanitize_filename_is_clean s :
  (∀ a t, free_of a t → free_of a (py_strip t)) →
  (∀ t, py_strip (py_strip t) = py_strip t) →
  (∀ a, a ∈ unsafe_chars ++ line_breaks → free_of a (sanitize_filename s)) ∧
  sanitize_filename (sanitize_filename s) = sanitize_filename s ∧
  String.length (replace_chars line_breaks (replace_chars unsafe_chars s))
  = String.length s.
Proof.
  intros Hstrip Hidem.
  assert (∀ a, a ∈ unsafe_chars ++ line_breaks → a ≠ "_"%char) as Hu.
  { intros a Ha ->. unfold unsafe_chars, line_breaks in Ha. cbn [app] in Ha.
    repeat (apply elem_of_cons in Ha as [Ha|Ha]; [discriminate Ha|]).
    by apply elem_of_nil in Ha. }
  assert (∀ a, a ∈ unsafe_chars ++ line_breaks →
               free_of a (sanitize_filename s)) as Hfree.
  { intros a Ha. unfold sanitize_filename. apply Hstrip.
    apply elem_of_app in Ha as Hcase. destruct Hcase as [Hin|Hin].
    - apply replace_chars_keeps_free; [by apply Hu|].
      apply replace_chars_removes; [done|by apply Hu].
    - apply replace_chars_removes; [done|by apply Hu]. }
  split; [done|]. split; [|by rewrite !replace_chars_length].
  unfold sanitize_filename at 1.
  rewrite (replace_chars_clean unsafe_chars)
    by (intros a Ha; apply Hfree, elem_of_app; by left).
  rewrite (replace_chars_clean line_breaks)
    by (intros a Ha; apply Hfree, elem_of_app; by right).
  unfold sanitize_filename. apply Hidem.
Qed.

(** X28. The pool has between two and eight workers whatever
    [os.cpu_count()] answers: as many as there are processors when that
    lies in the range, four when the count is unknown or zero. *)
Theorem max_workers_bounds cpu_count :
  (2 ≤ max_workers cpu_count ≤ 8)%nat ∧
  (∀ n, cpu_count = Some n → (2 ≤ n ≤ 8)%nat → max_workers cpu_count = n) ∧
  (cpu_count = None ∨ cpu_count = Some 0 → max_workers cpu_count = 4).
Proof.
  unfold max_workers. split; [|split].
  - destruct cpu_count as [[|n]|]; lia.
  - intros n -> Hn. destruct n; lia.
  - by intros [->| ->].
Qed.

Lemma filter_fmap_le {A} (P : A → Prop) `{!∀ x, Decision (P x)}
    (g : A → A) (l : list A) :
  (∀ y, P (g y) → P y) →
  (length (filter P (g <$> l)) ≤ length (filter P l))%nat.
Proof.
  intros Hg. induction l as [|y l IH]; [done|].
  rewrite fmap_cons, !filter_cons.
  destruct (decide (P (g y))) as [Hy|Hy].
  - rewrite decide_True by (by apply Hg). cbn [length]. lia.
  - destruct (decide (P y)); cbn [length]; lia.
Qed.

Lemma filter_fmap_shrinks {A} (P : A → Prop) `{!∀ x, Decision (P x)}
    (g : A → A) (l : list A) x :
  (∀ y, P (g y) → P y) → x ∈ l → P x → ¬ P (g x) →
  (length (filter P (g <$> l)) < length (filter P l))%nat.
Proof.
  intros Hg Hx HP HnP. induction l as [|y l IH]; [by apply elem_of_nil in Hx|].
  rewrite fmap_cons, !filter_cons.
  apply elem_of_cons in Hx as [<-|Hx].
  - rewrite decide_False, decide_True by done. cbn [length].
    pose proof (filter_fmap_le P g l Hg). lia.
  - specialize (IH Hx). destruct (decide (P (g y))) as [Hy|Hy].
    + rewrite decide_True by (by apply Hg). cbn [length]. lia.
    + destruct (decide (P y)); cbn [length]; lia.
Qed.

(** X29. From the listing to the table. A pending row with a link is
    handed to [process_standard] as an entry with that link; when the
    run for it finds both objects, or is answered that they are not
    both there and renders and uploads them, and the update runs, the
    table has fewer pending rows than before and no pending row with
    that link is left. *)
Theorem listed_row_is_marked_complete p env w i r u :
  Forall (λ r, isna (cell r "standard_title") = false) (pending_rows (db w)) →
  pending_rows (db w) !! i = Some r →
  cell r "title_link" = VStr u →
  ∃ o e,
    rows (get_unprocessed_standards false (db w)) !! i = Some o ∧
    entry_of_row o = Some e ∧
    title_link e = VStr u ∧
    (use_s3 p = true →
     both_exist env w e = Some true ∨
     (both_exist env w e = Some false ∧ renders_both env e ∧
      both_uploaded env e) →
     database env = Runs →
     (length (pending_rows (db (process_standard p env w e).1))
      < length (pending_rows (db w)))%nat ∧
     Forall (λ r', cell r' "title_link" ≠ VStr u)
            (pending_rows (db (process_standard p env w e).1))).
Proof.
  intros Htitles Hr Hu. rewrite get_unprocessed_standards_rows.
  destruct (with_filenames_all (db w) Htitles) as [out Hout].
  rewrite Hout. cbn [default].
  destruct (listed_row (db w) out i r Hout Hr)
    as (o & title & Ho & _ & _ & _ & He).
  assert (sql_read (cell r "title_link") = VStr u) as Hread by (by rewrite Hu).
  rewrite Hread in He. eexists o, _. split; [done|]. split; [exact He|].
  split; [done|]. cbn [title_link pdf_filename html_filename].
  intros Hs Hpath Hdb.
  rewrite (recording_reached p env w _ Hs Hpath Hdb).
  cbn [title_link pdf_filename html_filename].
  unfold update_s3_paths. cbn [fst].
  apply list_elem_of_lookup_2 in Hr.
  apply list_elem_of_filter in Hr as [Hpend Hin].
  split.
  - unfold pending_rows.
    apply (filter_fmap_shrinks (λ r : row, unprocessed r = true) _ _ r);
      [| done | done |].
    + intros y. destruct (sql_eq _ _); [|done].
      by rewrite unprocessed_negb_processed, processed_set_s3_paths.
    + rewrite Hu. cbn [sql_eq]. rewrite bool_decide_eq_true_2 by done.
      by rewrite unprocessed_negb_processed, processed_set_s3_paths.
  - unfold pending_rows. apply Forall_forall.
    intros r' [Hp (r0 & -> & Hr0)%list_elem_of_fmap]%list_elem_of_filter.
    revert Hp. destruct (sql_eq _ _) eqn:Heq.
    + by rewrite unprocessed_negb_processed, processed_set_s3_paths.
    + intros _ Hlink. rewrite Hlink in Heq. cbn [sql_eq] in Heq.
      by rewrite bool_decide_eq_true_2 in Heq.
Qed.

Lemma process_fda_standards_new_records f tbl df :
  success (process_fda_standards f tbl df).2 = true →
  new_records (process_fda_standards f tbl df).2 = Some (length (rows df)).
Proof.
  unfold process_fda_standards. destruct (connect_error f); [done|].
  destruct (insert_new_standards _ tbl df) as [tbl' [ok msg]].
  by destruct ok.
Qed.

(** X30. [run_full_pipeline] never leaves through its "no new data or
    documents" return: [new_records] is the number of scraped records,
    which is not zero once the empty frame has been turned away. It
    returns [True] exactly when the frame is not empty, the sync
    succeeds and the processing raises nothing; the processing is not
    called when the listing comes back empty, and the table is then the
    one the sync left. *)
Theorem nothing_to_do_exit_is_dead scraped f run tbl :
  let synced := process_fda_standards (sync_step f) tbl scraped in
  let listing := get_unprocessed_standards (requery_error f) synced.1 in
  let res := run_full_pipeline scraped f run tbl in
  res.2 ≠ NothingToDo ∧
  (res.2 = NoData ↔ df_empty scraped = true) ∧
  (returned res.2 = true ↔
   df_empty scraped = false ∧ success synced.2 = true ∧
   (df_empty listing = true ∨ is_Some (run synced.1 listing))) ∧
  (returned res.2 = true → df_empty listing = true → res.1 = synced.1).
Proof.
  cbv zeta. unfold run_full_pipeline.
  destruct (df_empty scraped) eqn:Hempty.
  { cbn [fst snd returned]. repeat split; try done. by intros [[=] _]. }
  pose proof (process_fda_standards_new_records (sync_step f) tbl scraped)
    as Hnew.
  destruct (process_fda_standards (sync_step f) tbl scraped)
    as [tbl' result]. cbn [fst snd] in *.
  destruct (success result).
  2:{ cbn [negb fst snd returned]. repeat split; try done. by intros (_ & [=] & _). }
  rewrite Hnew by done. cbn [negb default].
  assert (length (rows scraped) ≠ 0) as Hlen.
  { intros Hnil%nil_length_inv. unfold df_empty in Hempty.
    rewrite Hnil, orb_true_r in Hempty. done. }
  rewrite (bool_decide_eq_false_2 _ Hlen). cbn [andb].
  destruct (df_empty (get_unprocessed_standards (requery_error f) tbl'))
    eqn:Hlist; cbn [negb fst snd returned].
  { repeat split; try done. auto. }
  destruct (run tbl' _) as [tbl''|]; cbn [fst snd returned];
    repeat split; try done; eauto.
  - by intros (_ & _ & [[=]|[? [=]]]).
Qed.

End PipelineMore.
(** ** The further properties on concrete inputs *)

Lemma continuation_rows_share_carry_witness :
  ∃ (r0 : row) (rs : list row),
    @extract_table_rows demo
      (Some [ex_full; ex_cont; [plain "stray"]; ex_cont_plain]) None
    = Some (r0 :: rs, None) ∧
    length rs = 2 ∧
    ∀ r, r ∈ rs → ∀ i f, carried_fields !! i = Some f →
      r !! f = (VStr ∘ td_text) <$> ex_full !! i.
Proof.
  apply (@continuation_rows_share_carry demo None ex_full
           [ex_cont; [plain "stray"]; ex_cont_plain]).
  - vm_compute. lia.
  - vm_compute. reflexivity.
  - repeat constructor; vm_compute; lia.
  - unfold anchors_ok. repeat constructor.
Defined.

Lemma header_template_set_once_witness :
  Some (td_text <$> ex_header) = None ∨
  ∃ trs tds, Some [ex_header; ex_full] = Some trs ∧ tds ∈ trs ∧
             Some (td_text <$> ex_header) = Some (td_text <$> tds) ∧
             existsb (contains "Date") (td_text <$> tds) = true.
Proof.
  apply (@header_template_set_once demo (Some [ex_header; ex_full]) None
           [ @make_row (VStr "01/02/2024") (VStr "Cardiovascular")
               (VStr "3-101") (VStr "Complete") (VStr "AAMI")
               (VStr "EC12:2000") (VStr "Disposable ECG electrodes")
               (VStr (@urljoin demo (@FDA_BASE_URL demo) "detail.cfm?id=101")) ]
           (Some (td_text <$> ex_header))).
  reflexivity.
Defined.

Lemma header_row_skipped_on_every_page_witness :
  @extract_table_rows demo (Some [ex_header; ex_full; ex_cont]) None
    = @extract_table_rows demo (Some [ex_full; ex_cont])
        (Some (td_text <$> ex_header)) ∧
  @extract_table_rows demo (Some [ex_header; ex_full; ex_cont])
      (Some (td_text <$> ex_header))
    = @extract_table_rows demo (Some [ex_full; ex_cont])
        (Some (td_text <$> ex_header)).
Proof.
  apply (@header_row_skipped_on_every_page demo ex_header [ex_full; ex_cont]).
  - discriminate.
  - vm_compute. reflexivity.
Defined.

Lemma own_fields_are_strings_witness :
  ∃ text,
    @make_row (VStr "01/02/2024") (VStr "Cardiovascular")
      (VStr "3-101") (VStr "Complete") (VStr "ISO")
      (VStr "5840:2015") (VStr "Cardiac valve prostheses") (VStr "")
      !! "title_link" = Some (VStr text).
Proof.
  apply (@own_fields_are_strings demo (Some [ex_full; ex_cont_plain]) None
           [ @make_row (VStr "01/02/2024") (VStr "Cardiovascular")
               (VStr "3-101") (VStr "Complete") (VStr "AAMI")
               (VStr "EC12:2000") (VStr "Disposable ECG electrodes")
               (VStr (@urljoin demo (@FDA_BASE_URL demo) "detail.cfm?id=101"));
             @make_row (VStr "01/02/2024") (VStr "Cardiovascular")
               (VStr "3-101") (VStr "Complete") (VStr "ISO")
               (VStr "5840:2015") (VStr "Cardiac valve prostheses") (VStr "") ]
           None).
  - reflexivity.
  - right. left.
  - unfold own_fields. set_solver.
Defined.

Lemma frame_cells_are_strings_witness :
  ∃ fr : row,
    rows (@to_frame demo [delete "title_link" ex_record]) !! 0 = Some fr ∧
    length (rows (@to_frame demo [delete "title_link" ex_record])) = 1 ∧
    fr !! "title_link" = Some (VStr "").
Proof.
  destruct (@frame_cells_are_strings demo [delete "title_link" ex_record] 0
              (delete "title_link" ex_record) "title_link")
    as (fr & Hfr & Hlen & Hcell); [reflexivity|].
  exists fr. split; [exact Hfr|]. split; [exact Hlen|]. exact Hcell.
Defined.

Lemma crawl_fetches_in_steps_witness :
  ∃ k, [] ++ ((λ i, 1 + PAGE_SIZE * i) <$> seq 0 (S ((S 1300 - 1) / PAGE_SIZE)))
       = [] ++ offsets 1 (S k) ∧
       (length (@nil row) + PAGE_SIZE * k
        ≤ length ([] ++ (@mock_record demo <$> seq 1 (S 1300 - 1))))%nat.
Proof.
  apply (@crawl_fetches_in_steps demo 3 (mock_source 1300) 1 None [] []).
  apply scrape_loop_mock; [lia|]. vm_compute. lia.
Defined.

Lemma key_string_determines_fields_witness :
  @generate_unique_id demo "3-101" "AAMI" "EC12:2000"
    = @md5_hexdigest demo (key_string "3-101" "AAMI" "EC12:2000") ∧
  "3-101" = "3-10" +:+ "1" ∧ "AAMI" = "AA" +:+ "MI" ∧
  "EC12:2000" = "EC12" +:+ ":2000".
Proof.
  apply (@key_string_determines_fields demo "3-101" "AAMI" "EC12:2000"
           ("3-10" +:+ "1") ("AA" +:+ "MI") ("EC12" +:+ ":2000"));
    [vm_compute; repeat split; discriminate ..|reflexivity].
Defined.

Lemma check_duplicates_keeps_new_records_witness :
  rows (@check_duplicates demo no_fault [ex_catalog_row "3-101"]
          {| columns := @COLUMNS demo;
             rows := [ex_record; ex_record2; ex_record2] |})
  = @add_id demo
      <$> filter (λ r, @row_unique_id demo r
                         ∉ existing_ids [ex_catalog_row "3-101"])
                 [ex_record; ex_record2; ex_record2].
Proof.
  destruct (@check_duplicates_keeps_new_records demo no_fault
              [ex_catalog_row "3-101"]
              {| columns := @COLUMNS demo;
                 rows := [ex_record; ex_record2; ex_record2] |})
    as (Hrows & _).
  - vm_compute. reflexivity.
  - reflexivity.
  - exact Hrows.
Defined.

Lemma inserted_rows_start_unprocessed_witness :
  Forall (λ r, cell r "aws_key" = VNone ∧ cell r "aws_html_key" = VNone ∧
               cell r "aws_bucket" = VStr s3_bucket ∧
               processed r = false ∧ unprocessed r = true ∧
               isna (cell r "standard_title") = false ∧
               isna (cell r "specialty_task_group_area") = false ∧
               ∃ id, cell r "unique_id" = VStr id ∧ id ∉ existing_ids [])
         (@insert_new_standards demo no_fault [] ex_batch_two).1.
Proof.
  apply (@inserted_rows_start_unprocessed demo no_fault [] ex_batch_two).
  reflexivity.
Defined.

Lemma identities_stay_unique_witness :
  NoDup (table_ids (@insert_new_standards demo no_fault
                      [ex_catalog_row "3-101"] ex_batch_two).1).
Proof.
  apply (@identities_stay_unique demo no_fault [ex_catalog_row "3-101"]
           ex_batch_two).
  - apply (bool_decide_unpack _). vm_compute. exact I.
  - apply (bool_decide_unpack _). vm_compute. exact I.
Defined.

Lemma unprocessed_rows_listed_witness :
  length (rows (@get_unprocessed_standards demo_split false (db ex_world)))
  = length (pending_rows (db ex_world)) ∧
  ∀ i r, pending_rows (db ex_world) !! i = Some r →
    ∃ (o : row) title,
      rows (@get_unprocessed_standards demo_split false (db ex_world)) !! i
        = Some o ∧
      cell r "standard_title" = VStr title ∧
      cell o "title_link" = sql_read (cell r "title_link") ∧
      cell o "unique_id" = sql_read (cell r "unique_id") ∧
      entry_of_row o
      = Some {| title_link := sql_read (cell r "title_link");
                pdf_filename :=
                  (py_str (sql_read (cell r "recognition_number")) +:+ "_" +:+
                   @title_stem demo_split title) +:+ ".pdf";
                html_filename :=
                  (py_str (sql_read (cell r "recognition_number")) +:+ "_" +:+
                   @title_stem demo_split title) +:+ ".html" |}.
Proof.
  apply (@unprocessed_rows_listed demo_split (db ex_world)).
  repeat constructor.
Defined.

Lemma null_title_hides_pending_rows_witness :
  @get_unprocessed_standards demo_split false
    [ex_catalog_row "3-101"; ex_row_null_title] = empty_frame ∧
  pending_rows [ex_catalog_row "3-101"; ex_row_null_title] ≠ [].
Proof.
  apply (@null_title_hides_pending_rows demo_split false
           [ex_catalog_row "3-101"; ex_row_null_title] ex_row_null_title).
  - set_solver.
  - vm_compute. reflexivity.
  - vm_compute. reflexivity.
Defined.

Lemma titles_stay_present_witness :
  titles_present (@insert_new_standards demo no_fault (db ex_world) ex_batch_two).1 ∧
  titles_present (update_s3_paths false (db ex_world) (VStr "") "a.pdf" "a.html").1 ∧
  titles_present (reset_s3_paths false (db ex_world)).1 ∧
  length (rows (@get_unprocessed_standards demo_split false (db ex_world)))
  = length (pending_rows (db ex_world)).
Proof.
  apply (@titles_stay_present demo demo_split).
  unfold titles_present. repeat constructor.
Defined.

Lemma uploaded_file_is_found_witness :
  let w' := {| db := db ex_world_rendered;
               bucket := {[ @pdf_key demo ex_entry ]} ∪ bucket ex_world_rendered;
               disk := disk ex_world_rendered |} in
  @pdf_key demo ex_entry ∈ bucket w' ∧
  file_exists ex_env_fine w' (@pdf_key demo ex_entry) = Some true.
Proof.
  intros w'.
  destruct (uploaded_file_is_found ex_env_fine ex_world_rendered
              (Some "pdfs/3-101_Disposable_ECG_electrodes.pdf")
              (@pdf_key demo ex_entry) w' true)
    as (Hin & _ & _ & _ & _ & Hfound & _).
  - vm_compute. reflexivity.
  - split; [exact Hin|]. by apply Hfound.
Defined.

Lemma success_means_both_stored_witness :
  (@both_exist demo ex_env_fine ex_world_fresh ex_entry = Some true ∨
   (@both_exist demo ex_env_fine ex_world_fresh ex_entry = Some false ∧
    @renders_both demo ex_env_fine ex_entry ∧
    @both_uploaded demo ex_env_fine ex_entry)) ∧
  @pdf_key demo ex_entry
    ∈ bucket (@process_standard demo ex_processor ex_env_fine ex_world_fresh ex_entry).1 ∧
  @html_key demo ex_entry
    ∈ bucket (@process_standard demo ex_processor ex_env_fine ex_world_fresh ex_entry).1 ∧
  database ex_env_fine ≠ ConnectRaises.
Proof.
  apply (@success_means_both_stored demo ex_processor ex_env_fine
           ex_world_fresh ex_entry).
  - reflexivity.
  - vm_compute. reflexivity.
Defined.

Lemma same_file_names_are_not_uploaded_again_witness :
  (@process_standard demo ex_processor ex_env_fine
     (@process_standard demo ex_processor ex_env_fine ex_world_fresh ex_entry).1
     ex_entry).2 = true ∧
  bucket (@process_standard demo ex_processor ex_env_fine
            (@process_standard demo ex_processor ex_env_fine ex_world_fresh
               ex_entry).1 ex_entry).1
  = bucket (@process_standard demo ex_processor ex_env_fine ex_world_fresh
              ex_entry).1.
Proof.
  destruct (@same_file_names_are_not_uploaded_again demo ex_processor
              ex_env_fine ex_world_fresh ex_entry ex_entry)
    as (_ & Hok & Hbucket & _).
  - reflexivity.
  - vm_compute. reflexivity.
  - reflexivity.
  - reflexivity.
  - reflexivity.
  - reflexivity.
  - split; [exact Hok|exact Hbucket].
Defined.

Lemma without_s3_nothing_is_stored_witness :
  db (@process_standard demo ex_processor_local ex_env_fine ex_world_fresh ex_entry).1
    = db ex_world_fresh ∧
  bucket (@process_standard demo ex_processor_local ex_env_fine ex_world_fresh ex_entry).1
    = bucket ex_world_fresh ∧
  (@process_standard demo ex_processor_local ex_env_fine ex_world_fresh ex_entry).2
    = true ∧
  @pdf_local demo ex_processor_local ex_entry
    ∈ disk (@process_standard demo ex_processor_local ex_env_fine ex_world_fresh ex_entry).1.
Proof.
  destruct (@without_s3_nothing_is_stored demo ex_processor_local ex_env_fine
              ex_world_fresh ex_entry) as (Hdb & Hbucket & Hok & _ & Hpdf);
    [reflexivity|].
  split; [exact Hdb|]. split; [exact Hbucket|]. split; [exact Hok|].
  apply Hpdf; reflexivity.
Defined.

Lemma unrecorded_run_still_succeeds_witness :
  (@process_standard demo ex_processor ex_env_update_raises ex_world_fresh ex_entry).2
    = true ∧
  db (@process_standard demo ex_processor ex_env_update_raises ex_world_fresh ex_entry).1
    = db ex_world_fresh ∧
  @pdf_key demo ex_entry
    ∈ bucket (@process_standard demo ex_processor ex_env_update_raises ex_world_fresh ex_entry).1.
Proof.
  destruct (@unrecorded_run_still_succeeds demo ex_processor
              ex_env_update_raises ex_world_fresh ex_entry)
    as (Hok & Hdb & Hkey & _).
  - reflexivity.
  - vm_compute. reflexivity.
  - repeat split.
  - split; reflexivity.
  - vm_compute. discriminate.
  - by left.
  - split; [exact Hok|]. split; [exact Hdb|exact Hkey].
Defined.

Lemma null_link_is_never_recorded_witness :
  db (@process_standard demo ex_processor ex_env_fine ex_world_fresh ex_entry_null).1
    = db ex_world_fresh.
Proof.
  apply (@null_link_is_never_recorded demo ex_processor ex_env_fine
           ex_world_fresh ex_entry_null).
  intros u. discriminate.
Defined.

Lemma sanitize_filename_is_clean_witness :
  (∀ a, a ∈ unsafe_chars ++ line_breaks →
        free_of a (@sanitize_filename demo "3-101_ISO/IEC 8601: dates?.pdf")) ∧
  @sanitize_filename demo (@sanitize_filename demo "3-101_ISO/IEC 8601: dates?.pdf")
    = @sanitize_filename demo "3-101_ISO/IEC 8601: dates?.pdf".
Proof.
  destruct (@sanitize_filename_is_clean demo "3-101_ISO/IEC 8601: dates?.pdf")
    as (Hfree & Hidem & _).
  - intros a t Ht. exact Ht.
  - intros t. reflexivity.
  - split; [exact Hfree|exact Hidem].
Defined.

Lemma listed_row_is_marked_complete_witness :
  ∃ (o : row) e,
    rows (@get_unprocessed_standards demo_split false (db ex_world_fresh)) !! 0
      = Some o ∧
    entry_of_row o = Some e ∧
    title_link e = VStr "" ∧
    (length (pending_rows
               (db (@process_standard demo ex_processor ex_env_fine
                      ex_world_fresh e).1))
     < length (pending_rows (db ex_world_fresh)))%nat.
Proof.
  destruct (@listed_row_is_marked_complete demo demo_split ex_processor
              ex_env_fine ex_world_fresh 0 (ex_catalog_row "3-101") "")
    as (o & e & Ho & He & Hlink & Hrun).
  - repeat constructor.
  - unfold pending_rows, ex_world_fresh. cbn [db].
    rewrite filter_cons_True by (vm_compute; reflexivity). reflexivity.
  - vm_compute. reflexivity.
  - exists o, e. split; [exact Ho|]. split; [exact He|]. split; [exact Hlink|].
    apply Hrun; [reflexivity| |reflexivity].
    right. split; [|split; [repeat split|split; reflexivity]].
    unfold both_exist, file_exists, ex_env_fine, ex_world_fresh.
    cbn [head_object bucket].
    rewrite bool_decide_eq_false_2 by apply not_elem_of_empty. reflexivity.
Defined.
